(** * MirrorMind bot: language resolver, preference store and handlers

    Shallow embedding of [kmai2.py].  The pure helpers
    ([normalize_language], [language_instruction]) are plain functions on
    byte strings.  The handlers are written in a small state-and-exception
    monad over a [World] that holds the two SQLite tables, the replies
    handed to the chat SDK, the requests made to the generation client and
    the error log.  The external collaborators (file retrieval, the
    generation client, the clock) are oracles collected in [Env].  The
    handler registration is modelled by [process_update]; the webhook
    shim under [__main__] is not. *)

From Stdlib Require Import String Ascii List ZArith Bool Lia.
Import ListNotations.
Local Open Scope string_scope.
Local Open Scope Z_scope.

(* ================================================================== *)
(** ** Python string helpers *)

(** [needle in hay] on Python strings.  Strings are modelled as their
    UTF-8 bytes; the needles used by the program are ASCII, for which the
    byte-level and the code-point-level test agree. *)
Fixpoint contains (needle hay : string) : bool :=
  if prefix needle hay then true
  else match hay with
       | EmptyString => false
       | String _ rest => contains needle rest
       end.

(** Truth value of a Python [str]: only the empty string is falsy. *)
Definition str_truthy (s : string) : bool :=
  match s with EmptyString => false | String _ _ => true end.

(** Truth value of a value that is [None] or a [str]. *)
Definition truthy (v : option string) : bool :=
  match v with None => false | Some s => str_truthy s end.

Definition nl : string := String (ascii_of_nat 10) EmptyString.

(** [s.lower()] on ASCII letters.  The program itself never changes the
    case of a text; the SDK compares command names in lower case. *)
Definition ascii_lower (c : ascii) : ascii :=
  let n := nat_of_ascii c in
  if (Nat.leb 65 n && Nat.leb n 90)%bool then ascii_of_nat (n + 32) else c.

Fixpoint lower (s : string) : string :=
  match s with
  | EmptyString => EmptyString
  | String c rest => String (ascii_lower c) (lower rest)
  end.

(* ================================================================== *)
(** ** Language system *)

(** The five supported language tags. *)
Inductive Lang := English | Hindi | Bengali | Hinglish | Bengalish.

Definition tag_name (l : Lang) : string :=
  match l with
  | English => "English"
  | Hindi => "Hindi"
  | Bengali => "Bengali"
  | Hinglish => "Hinglish"
  | Bengalish => "Bengalish"
  end.

Definition Lang_eqb (a b : Lang) : bool :=
  match a, b with
  | English, English | Hindi, Hindi | Bengali, Bengali
  | Hinglish, Hinglish | Bengalish, Bengalish => true
  | _, _ => false
  end.

(** [ReplyKeyboardMarkup]: rows of button labels. *)
Definition Keyboard := list (list string).

Definition LANGUAGE_KEYBOARD : Keyboard :=
  [ ["ðŸ‡¬ðŸ‡§ English"];
    ["ðŸ‡®ðŸ‡³ Hindi"];
    ["ðŸ‡®ðŸ‡³ Bengali"];
    ["ðŸ‡®ðŸ‡³ Hinglish"];
    ["ðŸ‡®ðŸ‡³ Bengalish"] ].

(** [normalize_language(text)]: the if/elif chain, [None] at the end. *)
Definition normalize_language (text : string) : option string :=
  if contains "Hinglish" text then Some "Hinglish"
  else if contains "Bengalish" text then Some "Bengalish"
  else if contains "English" text then Some "English"
  else if contains "Hindi" text then Some "Hindi"
  else if contains "Bengali" text then Some "Bengali"
  else None.

(** The resolver as the specification words it: the first name, in the
    priority order Hinglish, Bengalish, English, Hindi, Bengali, that
    occurs in the text. *)
Definition priority_order : list Lang := [Hinglish; Bengalish; English; Hindi; Bengali].

Definition normalize_selection_spec (text : string) : option string :=
  option_map tag_name (find (fun l => contains (tag_name l) text) priority_order).

(** [dict.get(key, default)] on a dict with string keys, the key being a
    [str] or [None]. *)
Fixpoint dict_get (d : list (string * string)) (key : option string) (default : string) : string :=
  match d with
  | [] => default
  | (k, v) :: rest =>
      match key with
      | Some s => if String.eqb k s then v else dict_get rest key default
      | None => dict_get rest key default
      end
  end.

Definition mapping : list (string * string) :=
  [ ("English", "Respond in English.");
    ("Hindi", "Respond in Hindi using Devanagari script.");
    ("Bengali", "Respond in Bengali script.");
    ("Hinglish", "Respond in Hinglish (Hindi written in English letters).");
    ("Bengalish", "Respond in Bengalish (Bengali written in English letters).") ].

(** [language_instruction(lang)]. *)
Definition language_instruction (lang : option string) : string :=
  dict_get mapping lang "Respond in English.".

(** The directive the fixed table gives for each tag. *)
Definition directive (l : Lang) : string :=
  match l with
  | English => "Respond in English."
  | Hindi => "Respond in Hindi using Devanagari script."
  | Bengali => "Respond in Bengali script."
  | Hinglish => "Respond in Hinglish (Hindi written in English letters)."
  | Bengalish => "Respond in Bengalish (Bengali written in English letters)."
  end.

(* ================================================================== *)
(** ** Inbound messages *)

(** A photo size, voice note, audio file or video of a message: the
    handle the SDK retrieves the file with, and the MIME type if known. *)
Record Media := mkMedia {
  file_id : Z;
  mime_type : option string
}.

(** [update.message]: the fields the handlers and the filters read. *)
Record Message := mkMessage {
  from_user_id : Z;
  text : option string;
  command : option string;   (* name of a leading command to this bot, if any *)
  photo : list Media;        (* the sizes of a photo, smallest first *)
  voice : option Media;
  audio : option Media;
  video : option Media
}.

(* ================================================================== *)
(** ** The world the handlers act on *)

(** Row of [users(user_id INTEGER PRIMARY KEY, language TEXT)]. *)
Record UserRow := mkUserRow {
  u_user_id : Z;
  u_language : string
}.

(** Row of [messages(user_id, text, mood_score, timestamp)]; the last two
    columns may hold NULL. *)
Record MessageRow := mkMessageRow {
  m_user_id : Z;
  m_text : string;
  m_mood_score : option Z;
  m_timestamp : option Z
}.

(** One part of a generation request: text, or bytes with a MIME type. *)
Inductive Segment :=
| SegText (s : string)
| SegBytes (data : list Byte.byte) (mime : string).

(** A call of [reply_text] that went through: the sender of the message it
    was called on, the text and the markup.  The SDK delivers the reply to
    the chat that message came from, which is the sender's private chat or
    a group; the chat is not part of the model. *)
Record Reply := mkReply {
  answered_user : Z;
  body : string;
  reply_markup : option Keyboard
}.

Record World := mkWorld {
  users : list UserRow;
  messages : list MessageRow;
  outbox : list Reply;               (* replies sent, oldest first *)
  gen_calls : list (list Segment);   (* generation requests, oldest first *)
  error_log : list string
}.

(** Python exceptions that can reach a handler. *)
Inductive Exn :=
| IndexError
| AttributeError
| TypeError
| TelegramError (msg : string)
| GeminiError (msg : string).

Definition exn_str (e : Exn) : string :=
  match e with
  | IndexError => "list index out of range"
  | AttributeError => "'NoneType' object has no attribute"
  | TypeError => "argument of type 'NoneType' is not iterable"
  | TelegramError msg => msg
  | GeminiError msg => msg
  end.

(** The collaborators outside the program. *)
Record Env := mkEnv {
  get_file : Z -> Exn + string;                       (* file handle to path *)
  download_as_bytearray : string -> Exn + list Byte.byte;
  generate_content : list Segment -> Exn + string;    (* [response.text] *)
  now : Z                                             (* [datetime.now()] *)
}.

(* ================================================================== *)
(** ** State and exception monad

    A raised exception keeps the effects done before it, as in Python. *)

Inductive Outcome (A : Type) :=
| Returned (a : A)
| Raised (e : Exn).
Arguments Returned {A} a.
Arguments Raised {A} e.

Definition M (A : Type) : Type := World -> Outcome A * World.

Definition ret {A} (a : A) : M A := fun w => (Returned a, w).

Definition bind {A B} (m : M A) (k : A -> M B) : M B :=
  fun w => match m w with
           | (Returned a, w') => k a w'
           | (Raised e, w') => (Raised e, w')
           end.

Definition raise {A} (e : Exn) : M A := fun w => (Raised e, w).

(** [try: body except Exception as e: handler(e)]. *)
Definition try_except {A} (body : M A) (handler : Exn -> M A) : M A :=
  fun w => match body w with
           | (Returned a, w') => (Returned a, w')
           | (Raised e, w') => handler e w'
           end.

(** An outside call that returns or raises. *)
Definition lift {A} (r : Exn + A) : M A :=
  match r with inl e => raise e | inr a => ret a end.

Declare Scope monad_scope.
Delimit Scope monad_scope with monad.
Notation "x <- c1 ;; c2" := (bind c1 (fun x => c2))
  (at level 61, c1 at next level, right associativity) : monad_scope.
Notation "c1 ;; c2" := (bind c1 (fun _ => c2))
  (at level 61, right associativity) : monad_scope.
Local Open Scope monad_scope.

(* ================================================================== *)
(** ** Effects *)

(** [update.message.reply_text(text, reply_markup=...)], recorded with the
    sender of the message.  The SDK call and the SQLite calls below are
    taken to return: what the handlers do when one of them raises is not
    part of the model. *)
Definition reply_text (update : Message) (text : string) (markup : option Keyboard) : M unit :=
  fun w => (Returned tt,
            mkWorld (users w) (messages w)
                    (outbox w ++ [mkReply (from_user_id update) text markup])
                    (gen_calls w) (error_log w)).

(** [logging.error(msg)]. *)
Definition logging_error (msg : string) : M unit :=
  fun w => (Returned tt,
            mkWorld (users w) (messages w) (outbox w) (gen_calls w) (error_log w ++ [msg])).

(** [client.models.generate_content(model="gemini-2.5-flash", contents=...)]
    followed by [.text]: the request is made, then the client returns or
    raises. *)
Definition client_generate_content (env : Env) (contents : list Segment) : M string :=
  fun w => lift (generate_content env contents)
                (mkWorld (users w) (messages w) (outbox w)
                         (gen_calls w ++ [contents]) (error_log w)).

(** [SELECT language FROM users WHERE user_id=?] on a list of rows. *)
Fixpoint select_language (tbl : list UserRow) (user_id : Z) : option string :=
  match tbl with
  | [] => None
  | r :: rest =>
      if u_user_id r =? user_id then Some (u_language r)
      else select_language rest user_id
  end.

(** [INSERT INTO users ... ON CONFLICT(user_id) DO UPDATE SET
    language=excluded.language] on a list of rows: the row of the user is
    rewritten where there is one, and a row is added where there is none. *)
Fixpoint upsert_user (tbl : list UserRow) (user_id : Z) (language : string) : list UserRow :=
  match tbl with
  | [] => [mkUserRow user_id language]
  | r :: rest =>
      if u_user_id r =? user_id then mkUserRow user_id language :: rest
      else r :: upsert_user rest user_id language
  end.

(** The [SELECT] and [fetchone()]: the language of the row, or [None]. *)
Definition fetch_language (user_id : Z) : M (option string) :=
  fun w => (Returned (select_language (users w) user_id), w).

(** The upsert and [conn.commit()]. *)
Definition store_language (user_id : Z) (language : string) : M unit :=
  fun w => (Returned tt,
            mkWorld (upsert_user (users w) user_id language)
                    (messages w) (outbox w) (gen_calls w) (error_log w)).

(** [INSERT INTO messages(user_id, text, mood_score, timestamp) VALUES
    (?, ?, ?, ?)] and [conn.commit()]. *)
Definition insert_message (row : MessageRow) : M unit :=
  fun w => (Returned tt,
            mkWorld (users w) (messages w ++ [row]) (outbox w) (gen_calls w) (error_log w)).

(* ================================================================== *)
(** ** Gemini generator *)

(** [generate_ai(contents)]: the text of the response, [None] after any
    exception. *)
Definition generate_ai (env : Env) (contents : list Segment) : M (option string) :=
  try_except
    (response <- client_generate_content env contents ;;
     ret (Some response))
    (fun e =>
       logging_error ("Gemini Error: " ++ exn_str e) ;;
       ret None).

(* ================================================================== *)
(** ** Commands *)

Definition start (env : Env) (update : Message) : M unit :=
  let user_id := from_user_id update in
  result <- fetch_language user_id ;;
  match result with
  | None => reply_text update "Select your language:" (Some LANGUAGE_KEYBOARD)
  | Some _ => reply_text update "Hi. Tell me what's on your mind." None
  end.

Definition language_cmd (env : Env) (update : Message) : M unit :=
  reply_text update "Select language:" (Some LANGUAGE_KEYBOARD).

(* ================================================================== *)
(** ** Text handler *)

(** The f-string prompt of [text_handler]. *)
Definition text_prompt (lang : option string) : string :=
  nl ++ "You are MirrorMind Pro." ++ nl ++
  language_instruction lang ++ nl ++
  nl ++
  "Tone:" ++ nl ++
  "- Warm" ++ nl ++
  "- Emotionally intelligent" ++ nl ++
  "- Supportive" ++ nl ++
  nl ++
  "Respond in 4â€“6 sentences." ++ nl.

(** What [text_handler] does once the text is not a language selection. *)
Definition text_content (env : Env) (update : Message) (text : string) : M unit :=
  let user_id := from_user_id update in
  result <- fetch_language user_id ;;
  match result with
  | None =>
      reply_text update "Please select language first." (Some LANGUAGE_KEYBOARD)
  | Some lang =>
      let prompt := text_prompt (Some lang) in
      ai_response <- generate_ai env [SegText prompt; SegText text] ;;
      match ai_response with
      | Some response =>
          if str_truthy response then
            insert_message (mkMessageRow user_id text None (Some (now env))) ;;
            reply_text update response None
          else reply_text update "Error generating response." None
      | None => reply_text update "Error generating response." None
      end
  end.

Definition text_handler (env : Env) (update : Message) : M unit :=
  let user_id := from_user_id update in
  match text update with
  | None => raise TypeError
  | Some text =>
      match normalize_language text with
      | Some lang_select =>
          if str_truthy lang_select then
            store_language user_id lang_select ;;
            reply_text update ("Language set to " ++ lang_select ++ " âœ…") None
          else text_content env update text
      | None => text_content env update text
      end
  end.

(* ================================================================== *)
(** ** Photo handler *)

(** [xs[-1]]. *)
Definition last_item {A} (xs : list A) : M A :=
  match rev xs with
  | [] => raise IndexError
  | x :: _ => ret x
  end.

(** [result[0] if result else "English"]. *)
Definition language_or_english (result : option string) : option string :=
  match result with
  | Some lang => Some lang
  | None => Some "English"
  end.

Definition photo_handler (env : Env) (update : Message) : M unit :=
  let user_id := from_user_id update in
  photo <- last_item (photo update) ;;
  file <- lift (get_file env (file_id photo)) ;;
  file_bytes <- lift (download_as_bytearray env file) ;;
  result <- fetch_language user_id ;;
  let lang := language_or_english result in
  try_except
    (response <- client_generate_content env
                   [SegText (language_instruction lang ++ " Describe this image emotionally.");
                    SegBytes file_bytes "image/jpeg"] ;;
     reply_text update response None)
    (fun e =>
       logging_error (exn_str e) ;;
       reply_text update "Couldn't analyze image." None).

(* ================================================================== *)
(** ** Smart audio handler *)

(** [update.message.voice or update.message.audio]. *)
Definition voice_or_audio (update : Message) : option Media :=
  match voice update with
  | Some v => Some v
  | None => audio update
  end.

(** [media.mime_type or "audio/ogg"]. *)
Definition mime_or_ogg (media : Media) : string :=
  match mime_type media with
  | Some m => if str_truthy m then m else "audio/ogg"
  | None => "audio/ogg"
  end.

Definition audio_handler (env : Env) (update : Message) : M unit :=
  let user_id := from_user_id update in
  match voice_or_audio update with
  | None => raise AttributeError
  | Some media =>
      file <- lift (get_file env (file_id media)) ;;
      file_bytes <- lift (download_as_bytearray env file) ;;
      let mime_type := mime_or_ogg media in
      result <- fetch_language user_id ;;
      let lang := language_or_english result in
      try_except
        (response <- client_generate_content env
                       [SegText (language_instruction lang
                                 ++ " Transcribe this audio and respond emotionally.");
                        SegBytes file_bytes mime_type] ;;
         reply_text update response None)
        (fun e =>
           logging_error (exn_str e) ;;
           reply_text update "Couldn't process audio." None)
  end.

(* ================================================================== *)
(** ** Video handler *)

Definition video_handler (env : Env) (update : Message) : M unit :=
  reply_text update "Video analysis currently limited. Coming soon ðŸ”¥" None.

(* ================================================================== *)
(** ** Handler registration *)

Definition is_some {A} (o : option A) : bool :=
  match o with Some _ => true | None => false end.

(** [CommandHandler(name, ...)]: the command of the message is compared
    with the registered name in lower case, as the SDK does. *)
Definition filter_command (name : string) (m : Message) : bool :=
  match command m with
  | Some c => String.eqb (lower c) name
  | None => false
  end.

(** [filters.TEXT & ~filters.COMMAND]. *)
Definition filter_text (m : Message) : bool :=
  truthy (text m) && negb (is_some (command m)).

(** [filters.PHOTO]. *)
Definition filter_photo (m : Message) : bool :=
  match photo m with [] => false | _ :: _ => true end.

(** [filters.VOICE | filters.AUDIO]. *)
Definition filter_voice_audio (m : Message) : bool :=
  is_some (voice m) || is_some (audio m).

(** [filters.VIDEO]. *)
Definition filter_video (m : Message) : bool := is_some (video m).

(** The handlers in the order of [add_handler]. *)
Definition handlers (env : Env) : list ((Message -> bool) * (Message -> M unit)) :=
  [ (filter_command "start", start env);
    (filter_command "language", language_cmd env);
    (filter_text, text_handler env);
    (filter_photo, photo_handler env);
    (filter_voice_audio, audio_handler env);
    (filter_video, video_handler env) ].

(** The line the SDK logs for an exception of a handler; the source
    registers no error handler. *)
Definition unhandled_line (e : Exn) : string :=
  "No error handlers are registered, logging exception. " ++ exn_str e.

(** [application.process_update(update)] on an update that carries a new
    message: the first handler whose filter accepts the message runs; an
    exception that leaves the handler is caught and logged by the SDK; a
    message no filter accepts is dropped. *)
Definition process_update (env : Env) (update : Message) : M unit :=
  match find (fun h => fst h update) (handlers env) with
  | Some h => try_except (snd h update) (fun e => logging_error (unhandled_line e))
  | None => ret tt
  end.

(** The content kind of a message, as the registration order decides it. *)
Inductive Kind := KStart | KLanguage | KText | KPhoto | KVoiceAudio | KVideo.

Definition kind_of (m : Message) : option Kind :=
  if filter_command "start" m then Some KStart
  else if filter_command "language" m then Some KLanguage
  else if filter_text m then Some KText
  else if filter_photo m then Some KPhoto
  else if filter_voice_audio m then Some KVoiceAudio
  else if filter_video m then Some KVideo
  else None.

(** The callback of each content kind. *)
Definition handler_of (k : Kind) (env : Env) : Message -> M unit :=
  match k with
  | KStart => start env
  | KLanguage => language_cmd env
  | KText => text_handler env
  | KPhoto => photo_handler env
  | KVoiceAudio => audio_handler env
  | KVideo => video_handler env
  end.

(** What the SDK makes of the outcome of a handler. *)
Definition caught (r : Outcome unit * World) : Outcome unit * World :=
  match r with
  | (Returned a, w) => (Returned a, w)
  | (Raised e, w) => logging_error (unhandled_line e) w
  end.

(* ================================================================== *)
(** ** Updates that are not new messages

    An update carries its message as a new message, an edited message, a
    channel post or an edited channel post.  The filters of the source
    name no update type: they are applied to whichever message the update
    carries, while every callback reads [update.message], which is [None]
    unless the message is new. *)

Inductive UpdateType := NewMessage | EditedMessage | ChannelPost | EditedChannelPost.

Record Update := mkUpdate {
  update_type : UpdateType;
  effective_message : Message
}.

(** [update.message]. *)
Definition update_message (u : Update) : option Message :=
  match update_type u with
  | NewMessage => Some (effective_message u)
  | _ => None
  end.

(** A callback on an update: its first statement reads an attribute of
    [update.message]. *)
Definition on_message (callback : Message -> M unit) (u : Update) : M unit :=
  match update_message u with
  | Some m => callback m
  | None => raise AttributeError
  end.

(** The check of a [CommandHandler]: new and edited messages only. *)
Definition check_command (name : string) (u : Update) : bool :=
  match update_type u with
  | NewMessage | EditedMessage => filter_command name (effective_message u)
  | _ => false
  end.

(** The check of a [MessageHandler]: the filter on the message carried. *)
Definition check_message (filter : Message -> bool) (u : Update) : bool :=
  filter (effective_message u).

Definition update_handlers (env : Env) : list ((Update -> bool) * (Update -> M unit)) :=
  [ (check_command "start", on_message (start env));
    (check_command "language", on_message (language_cmd env));
    (check_message filter_text, on_message (text_handler env));
    (check_message filter_photo, on_message (photo_handler env));
    (check_message filter_voice_audio, on_message (audio_handler env));
    (check_message filter_video, on_message (video_handler env)) ].

(** [application.process_update(update)] on any update. *)
Definition process_any_update (env : Env) (u : Update) : M unit :=
  match find (fun h => fst h u) (update_handlers env) with
  | Some h => try_except (snd h u) (fun e => logging_error (unhandled_line e))
  | None => ret tt
  end.

(* ================================================================== *)
(** ** Observations used in the statements *)

(** Replies, generation requests and log rows a run added. *)
Definition replies_sent (w w' : World) : list Reply := skipn (length (outbox w)) (outbox w').
Definition requests_made (w w' : World) : list (list Segment) :=
  skipn (length (gen_calls w)) (gen_calls w').
Definition rows_logged (w w' : World) : list MessageRow :=
  skipn (length (messages w)) (messages w').

(** Rows of the preference table that belong to one user. *)
Definition rows_of (tbl : list UserRow) (user_id : Z) : list UserRow :=
  filter (fun r => u_user_id r =? user_id) tbl.

(** The PRIMARY KEY constraint of [users]: no two rows with one user. *)
Definition primary_key (tbl : list UserRow) : Prop :=
  NoDup (map u_user_id tbl).

(** The table as [CREATE TABLE IF NOT EXISTS] first makes it. *)
Definition empty_world : World := mkWorld [] [] [] [] [].

(** The media retrieval of a message succeeds: both SDK calls return. *)
Definition retrievable (env : Env) (media : Media) : Prop :=
  exists path bytes,
    get_file env (file_id media) = inr path /\
    download_as_bytearray env path = inr bytes.

(** Messages of one content kind each. *)
Definition command_message (user_id : Z) (name : string) : Message :=
  mkMessage user_id (Some ("/" ++ name)) (Some name) [] None None None.
Definition text_message (user_id : Z) (t : string) : Message :=
  mkMessage user_id (Some t) None [] None None None.
Definition photo_message (user_id : Z) (sizes : list Media) : Message :=
  mkMessage user_id None None sizes None None None.
Definition voice_message (user_id : Z) (v : Media) : Message :=
  mkMessage user_id None None [] (Some v) None None.
Definition video_message (user_id : Z) (v : Media) : Message :=
  mkMessage user_id None None [] None None (Some v).
Definition audio_message (user_id : Z) (a : Media) : Message :=
  mkMessage user_id None None [] None (Some a) None.

(** Collaborators that all answer, the generation client with [answer]. *)
Definition answering_env (answer : string) : Env :=
  mkEnv (fun _ => inr "photos/file_0.jpg") (fun _ => inr []) (fun _ => inr answer) 0.

(** Collaborators where the generation client raises on every request. *)
Definition refusing_env : Env :=
  mkEnv (fun _ => inr "photos/file_0.jpg") (fun _ => inr [])
        (fun _ => inl (GeminiError "quota exceeded")) 0.

(** Collaborators where the file lookup times out. *)
Definition unreachable_env : Env :=
  mkEnv (fun _ => inl (TelegramError "Timed out")) (fun _ => inr [])
        (fun _ => inr "A calm picture.") 0.

(** A string is one of the five tag names. *)
Definition is_tag (s : string) : bool :=
  existsb (fun l => String.eqb (tag_name l) s) priority_order.

(** Every stored language is one of the five tag names. *)
Definition valid_languages (tbl : list UserRow) : Prop :=
  Forall (fun r => is_tag (u_language r) = true) tbl.

(** The message with its photo sizes replaced. *)
Definition with_photo (update : Message) (sizes : list Media) : Message :=
  mkMessage (from_user_id update) (text update) (command update) sizes
            (voice update) (audio update) (video update).

(** The MIME type of the binary part of a request, if it has one. *)
Definition request_mime (contents : list Segment) : option string :=
  match contents with
  | [_; SegBytes _ mime] => Some mime
  | _ => None
  end.

(** The instruction part of a request, if it opens with text. *)
Definition request_instruction (contents : list Segment) : option string :=
  match contents with
  | SegText s :: _ => Some s
  | _ => None
  end.

(** Updates handled one after the other, each with the collaborators as
    they answer at that time. *)
Definition run_updates (trace : list (Env * Message)) (w : World) : World :=
  fold_left (fun w' step => snd (process_update (fst step) (snd step) w')) trace w.

(* ================================================================== *)
(** * Properties *)

(* ------------------------------------------------------------------ *)
(** ** Substring test *)

Lemma prefix_app_l (a b t : string) :
  prefix (a ++ b) t = true -> prefix a t = true.
Proof.
  revert t; induction a as [|c a IH]; intros t H.
  - destruct t; reflexivity.
  - destruct t as [|d t]; simpl in *; [discriminate|].
    destruct (ascii_dec c d); [auto | discriminate].
Qed.

Lemma contains_nil (n : string) : contains n "" = prefix n "".
Proof. destruct n; reflexivity. Qed.

Lemma contains_cons (n : string) (d : ascii) (t : string) :
  contains n (String d t) = (prefix n (String d t) || contains n t)%bool.
Proof. cbn [contains]. destruct (prefix n (String d t)); reflexivity. Qed.

Lemma contains_app_l (a b t : string) :
  contains (a ++ b) t = true -> contains a t = true.
Proof.
  induction t as [|d t IH].
  - rewrite !contains_nil. apply prefix_app_l.
  - rewrite !contains_cons, !orb_true_iff.
    intros [H|H]; [left; eapply prefix_app_l; eauto | right; auto].
Qed.

Lemma prefix_iff (n t : string) :
  prefix n t = true <-> exists post, t = n ++ post.
Proof.
  revert t; induction n as [|c n IH]; intros t.
  - destruct t; split; simpl; eauto.
  - destruct t as [|d t]; simpl.
    + split; [discriminate | intros [post H]; discriminate].
    + destruct (ascii_dec c d) as [->|N].
      * rewrite IH. split; intros [post H]; exists post; congruence.
      * split; [discriminate | intros [post H]; congruence].
Qed.

(** [contains] is Python's [in]: the needle occurs somewhere in the text. *)
Lemma contains_iff (n t : string) :
  contains n t = true <-> exists pre post, t = pre ++ n ++ post.
Proof.
  induction t as [|d t IH].
  - rewrite contains_nil, prefix_iff. split.
    + intros [post E]. exists "", post. exact E.
    + intros [pre [post H]]. destruct pre; [eauto | discriminate].
  - rewrite contains_cons, orb_true_iff, prefix_iff, IH. split.
    + intros [[post E] | [pre [post E]]].
      * exists "", post. exact E.
      * exists (String d pre), post. simpl. congruence.
    + intros [pre [post H]]. destruct pre as [|c pre]; simpl in H.
      * left. eauto.
      * right. exists pre, post. congruence.
Qed.

(** Every text with "Bengalish" in it has "Bengali" in it. *)
Lemma bengalish_has_bengali (t : string) :
  contains "Bengalish" t = true -> contains "Bengali" t = true.
Proof. apply (contains_app_l "Bengali" "sh"). Qed.

(* ------------------------------------------------------------------ *)
(** ** Language resolver *)

Lemma normalize_language_is_tag (t tag : string) :
  normalize_language t = Some tag -> exists l, tag = tag_name l.
Proof.
  unfold normalize_language.
  repeat match goal with |- context [if ?b then _ else _] => destruct b end;
    intros H; inversion H; subst.
  - now exists Hinglish.
  - now exists Bengalish.
  - now exists English.
  - now exists Hindi.
  - now exists Bengali.
Qed.

Lemma normalize_language_truthy (t tag : string) :
  normalize_language t = Some tag -> str_truthy tag = true.
Proof.
  intros H. apply normalize_language_is_tag in H as [l ->]. now destruct l.
Qed.

(** The if/elif chain is the search in priority order. *)
Lemma normalize_language_refines (t : string) :
  normalize_language t = normalize_selection_spec t.
Proof.
  unfold normalize_language, normalize_selection_spec, priority_order. simpl.
  repeat match goal with |- context [if ?b then _ else _] => destruct b end;
    reflexivity.
Qed.

(** Each button of the language keyboard selects its language. *)
Lemma keyboard_labels_select :
  map (map normalize_language) LANGUAGE_KEYBOARD =
  [[Some "English"]; [Some "Hindi"]; [Some "Bengali"]; [Some "Hinglish"]; [Some "Bengalish"]].
Proof. vm_compute. reflexivity. Qed.

(** C2. A text that contains exactly one of the five language names
    resolves to that name; a text that contains none of them resolves to
    [None]. *)
Theorem normalize_language_exactly_one (t : string) :
  (forall l : Lang,
      contains (tag_name l) t = true ->
      (forall l', l' <> l -> contains (tag_name l') t = false) ->
      normalize_language t = Some (tag_name l)) /\
  ((forall l : Lang, contains (tag_name l) t = false) ->
   normalize_language t = None).
Proof.
  split.
  - intros l Hl Hother.
    assert (Hne : forall l', contains (tag_name l') t = true -> l' = l).
    { intros l' H'. destruct (Lang_eqb l' l) eqn:E.
      - destruct l', l; simpl in E; congruence.
      - assert (N : l' <> l) by (intros ->; destruct l; discriminate).
        rewrite (Hother l' N) in H'. discriminate. }
    unfold normalize_language.
    destruct (contains "Hinglish" t) eqn:E1.
    { now rewrite <- (Hne Hinglish E1). }
    destruct (contains "Bengalish" t) eqn:E2.
    { now rewrite <- (Hne Bengalish E2). }
    destruct (contains "English" t) eqn:E3.
    { now rewrite <- (Hne English E3). }
    destruct (contains "Hindi" t) eqn:E4.
    { now rewrite <- (Hne Hindi E4). }
    destruct (contains "Bengali" t) eqn:E5.
    { now rewrite <- (Hne Bengali E5). }
    destruct l; simpl in Hl; congruence.
  - intros Hnone. unfold normalize_language.
    pose proof (Hnone Hinglish) as H1. pose proof (Hnone Bengalish) as H2.
    pose proof (Hnone English) as H3. pose proof (Hnone Hindi) as H4.
    pose proof (Hnone Bengali) as H5. cbn [tag_name] in *.
    now rewrite H1, H2, H3, H4, H5.
Qed.

Lemma normalize_language_exactly_one_witness :
  normalize_language "ðŸ‡®ðŸ‡³ Hindi" = Some "Hindi" /\
  normalize_language "I feel anxious today" = None.
Proof.
  split.
  - apply (proj1 (normalize_language_exactly_one "ðŸ‡®ðŸ‡³ Hindi") Hindi).
    + vm_compute. reflexivity.
    + intros l' N. destruct l'; try (vm_compute; reflexivity).
      exfalso. apply N. reflexivity.
  - apply (proj2 (normalize_language_exactly_one "I feel anxious today")).
    intros l. destruct l; vm_compute; reflexivity.
Defined.

(** C3, as stated, fails: a text with both "Hinglish" and "Bengalish" in
    it contains "Bengalish" and resolves to "Hinglish". *)
Lemma bengalish_not_always_returned :
  contains "Bengalish" "Hinglish Bengalish" = true /\
  normalize_language "Hinglish Bengalish" = Some "Hinglish" /\
  ~ (forall t : string,
        contains "Bengalish" t = true -> normalize_language t = Some "Bengalish").
Proof.
  split; [vm_compute; reflexivity|].
  split; [vm_compute; reflexivity|].
  intros H. specialize (H "Hinglish Bengalish" eq_refl).
  vm_compute in H. discriminate.
Qed.

(** C3, amended. The names are tried in the order Hinglish, Bengalish,
    English, Hindi, Bengali.  A text with both "Hinglish" and "Hindi"
    resolves to "Hinglish"; a text with "Bengalish" and without "Hinglish"
    resolves to "Bengalish"; no text with "Bengalish" resolves to
    "Bengali". *)
Theorem normalize_language_priority (t : string) :
  normalize_language t = normalize_selection_spec t /\
  (contains "Hinglish" t = true -> contains "Hindi" t = true ->
   normalize_language t = Some "Hinglish") /\
  (contains "Bengalish" t = true -> contains "Hinglish" t = false ->
   normalize_language t = Some "Bengalish") /\
  (contains "Bengalish" t = true -> normalize_language t <> Some "Bengali").
Proof.
  split; [apply normalize_language_refines|].
  unfold normalize_language. repeat split.
  - intros H _. now rewrite H.
  - intros H1 H2. now rewrite H2, H1.
  - intros H. rewrite H. destruct (contains "Hinglish" t); discriminate.
Qed.

Lemma normalize_language_priority_witness :
  normalize_language "Hindi or Hinglish" = Some "Hinglish" /\
  normalize_language "ðŸ‡®ðŸ‡³ Bengalish" = Some "Bengalish" /\
  normalize_language "Hinglish Bengalish" <> Some "Bengali".
Proof.
  split; [|split].
  - apply (proj1 (proj2 (normalize_language_priority "Hindi or Hinglish")));
      vm_compute; reflexivity.
  - apply (proj1 (proj2 (proj2 (normalize_language_priority "ðŸ‡®ðŸ‡³ Bengalish"))));
      vm_compute; reflexivity.
  - apply (proj2 (proj2 (proj2 (normalize_language_priority "Hinglish Bengalish")))).
    vm_compute; reflexivity.
Defined.

(** C7. [language_instruction] is a total function; on a value that is
    none of the five tags ([None] included) it gives the English
    instruction, and on each tag it gives the directive of the table. *)
Theorem language_instruction_default (lang : option string) :
  ((forall l : Lang, lang <> Some (tag_name l)) ->
   language_instruction lang = "Respond in English.") /\
  (forall l : Lang, language_instruction (Some (tag_name l)) = directive l).
Proof.
  split.
  - intros H. destruct lang as [s|]; [|reflexivity].
    unfold language_instruction, mapping, dict_get.
    destruct (String.eqb_spec "English" s) as [<-|_]; [reflexivity|].
    destruct (String.eqb_spec "Hindi" s) as [<-|_]; [now destruct (H Hindi)|].
    destruct (String.eqb_spec "Bengali" s) as [<-|_]; [now destruct (H Bengali)|].
    destruct (String.eqb_spec "Hinglish" s) as [<-|_]; [now destruct (H Hinglish)|].
    destruct (String.eqb_spec "Bengalish" s) as [<-|_]; [now destruct (H Bengalish)|].
    reflexivity.
  - intros l. destruct l; reflexivity.
Qed.

Lemma language_instruction_default_witness :
  language_instruction None = "Respond in English." /\
  language_instruction (Some "Klingon") = "Respond in English." /\
  language_instruction (Some "english") = "Respond in English.".
Proof.
  split; [|split].
  - apply (proj1 (language_instruction_default None)).
    intros l. discriminate.
  - apply (proj1 (language_instruction_default (Some "Klingon"))).
    intros l. destruct l; discriminate.
  - apply (proj1 (language_instruction_default (Some "english"))).
    intros l. destruct l; discriminate.
Defined.

(* ------------------------------------------------------------------ *)
(** ** Preference store *)

Section PreferenceStore.

Variables (user_id : Z) (language : string).

Lemma select_upsert_same (tbl : list UserRow) :
  select_language (upsert_user tbl user_id language) user_id = Some language.
Proof.
  induction tbl as [|r tbl IH]; simpl.
  - now rewrite Z.eqb_refl.
  - destruct (u_user_id r =? user_id) eqn:E; simpl.
    + now rewrite Z.eqb_refl.
    + now rewrite E.
Qed.

Lemma select_upsert_other (tbl : list UserRow) (other : Z) :
  other <> user_id ->
  select_language (upsert_user tbl user_id language) other =
  select_language tbl other.
Proof.
  intros N. induction tbl as [|r tbl IH]; simpl.
  - destruct (Z.eqb_spec user_id other); [congruence | reflexivity].
  - destruct (Z.eqb_spec (u_user_id r) user_id) as [E|E]; simpl.
    + destruct (Z.eqb_spec user_id other); [congruence|].
      destruct (Z.eqb_spec (u_user_id r) other); [congruence | reflexivity].
    + now rewrite IH.
Qed.

Lemma upsert_keys (tbl : list UserRow) (k : Z) :
  In k (map u_user_id (upsert_user tbl user_id language)) <->
  k = user_id \/ In k (map u_user_id tbl).
Proof.
  induction tbl as [|r tbl IH]; simpl.
  - intuition congruence.
  - destruct (Z.eqb_spec (u_user_id r) user_id) as [E|E]; simpl.
    + intuition congruence.
    + rewrite IH. intuition congruence.
Qed.

Lemma upsert_primary_key (tbl : list UserRow) :
  primary_key tbl -> primary_key (upsert_user tbl user_id language).
Proof.
  unfold primary_key. induction tbl as [|r tbl IH]; simpl; intros H.
  - constructor; [intros [] | constructor].
  - inversion H as [|? ? Hnotin Hrest]; subst.
    destruct (Z.eqb_spec (u_user_id r) user_id) as [E|E]; simpl.
    + constructor; [congruence | assumption].
    + constructor; [|auto].
      rewrite upsert_keys. intros [Heq|Hin]; [congruence | contradiction].
Qed.

Lemma rows_of_absent (tbl : list UserRow) :
  ~ In user_id (map u_user_id tbl) -> rows_of tbl user_id = [].
Proof.
  induction tbl as [|r tbl IH]; simpl; intros H; [reflexivity|].
  unfold rows_of; simpl.
  destruct (Z.eqb_spec (u_user_id r) user_id) as [E|E].
  - exfalso. apply H. now left.
  - apply IH. intros Hin. apply H. now right.
Qed.

Lemma rows_of_upsert (tbl : list UserRow) :
  primary_key tbl ->
  rows_of (upsert_user tbl user_id language) user_id = [mkUserRow user_id language].
Proof.
  unfold primary_key. induction tbl as [|r tbl IH]; simpl; intros H.
  - unfold rows_of; simpl. now rewrite Z.eqb_refl.
  - inversion H as [|? ? Hnotin Hrest]; subst.
    destruct (Z.eqb_spec (u_user_id r) user_id) as [E|E].
    + unfold rows_of; simpl. rewrite Z.eqb_refl. f_equal.
      apply rows_of_absent. congruence.
    + unfold rows_of; simpl.
      destruct (Z.eqb_spec (u_user_id r) user_id); [contradiction|].
      apply IH, Hrest.
Qed.

End PreferenceStore.

(* ------------------------------------------------------------------ *)
(** ** Running the handlers *)

Lemma skipn_length_app {A} (xs ys : list A) : skipn (length xs) (xs ++ ys) = ys.
Proof. induction xs; simpl; auto. Qed.

Lemma skipn_length_self {A} (xs : list A) : skipn (length xs) xs = [].
Proof. induction xs; simpl; auto. Qed.

(** Unfolds the monad and the effects, leaving the case analyses on the
    table lookup and on the collaborators. *)
Ltac run :=
  unfold caught, bind, ret, raise, try_except, lift, reply_text, logging_error,
    client_generate_content, fetch_language, store_language, insert_message,
    replies_sent, requests_made, rows_logged in *;
  cbn [fst snd users messages outbox gen_calls error_log] in *;
  rewrite ?skipn_length_app, ?skipn_length_self in *.

(** The text of a selection message is stored and confirmed; nothing
    else happens. *)
Lemma text_handler_selection (env : Env) (update : Message) (w : World)
      (t tag : string) :
  text update = Some t ->
  normalize_language t = Some tag ->
  text_handler env update w =
  (Returned tt,
   mkWorld (upsert_user (users w) (from_user_id update) tag)
           (messages w)
           (outbox w ++ [mkReply (from_user_id update)
                                 ("Language set to " ++ tag ++ " âœ…") None])
           (gen_calls w) (error_log w)).
Proof.
  intros Ht Hn. unfold text_handler. rewrite Ht, Hn.
  rewrite (normalize_language_truthy _ _ Hn). reflexivity.
Qed.

(** A text that is no selection goes on to the content branch. *)
Lemma text_handler_content (env : Env) (update : Message) (t : string) :
  text update = Some t ->
  normalize_language t = None ->
  text_handler env update = text_content env update t.
Proof.
  intros Ht Hn. unfold text_handler. now rewrite Ht, Hn.
Qed.

(** [generate_ai] never raises: it makes one request and returns the
    text, or logs and returns [None]. *)
Lemma generate_ai_total (env : Env) (contents : list Segment) (w : World) :
  exists r log,
    generate_ai env contents w =
    (Returned r,
     mkWorld (users w) (messages w) (outbox w) (gen_calls w ++ [contents]) log) /\
    r = match generate_content env contents with
        | inr response => Some response
        | inl _ => None
        end.
Proof.
  unfold generate_ai. run.
  destruct (generate_content env contents) as [e|response]; cbn; eauto.
Qed.

(** The content branch of [text_handler], case by case. *)
Lemma text_content_run (env : Env) (update : Message) (t : string) (w : World) :
  let user_id := from_user_id update in
  text_content env update t w =
  match select_language (users w) user_id with
  | None =>
      (Returned tt,
       mkWorld (users w) (messages w)
               (outbox w ++ [mkReply user_id "Please select language first."
                                     (Some LANGUAGE_KEYBOARD)])
               (gen_calls w) (error_log w))
  | Some lang =>
      let contents := [SegText (text_prompt (Some lang)); SegText t] in
      match generate_content env contents with
      | inr response =>
          if str_truthy response then
            (Returned tt,
             mkWorld (users w)
                     (messages w ++ [mkMessageRow user_id t None (Some (now env))])
                     (outbox w ++ [mkReply user_id response None])
                     (gen_calls w ++ [contents]) (error_log w))
          else
            (Returned tt,
             mkWorld (users w) (messages w)
                     (outbox w ++ [mkReply user_id "Error generating response." None])
                     (gen_calls w ++ [contents]) (error_log w))
      | inl e =>
          (Returned tt,
           mkWorld (users w) (messages w)
                   (outbox w ++ [mkReply user_id "Error generating response." None])
                   (gen_calls w ++ [contents])
                   (error_log w ++ ["Gemini Error: " ++ exn_str e]))
      end
  end.
Proof.
  unfold text_content, generate_ai. run.
  destruct (select_language (users w) (from_user_id update)) as [lang|];
    [|reflexivity].
  destruct (generate_content env _) as [e|response]; cbn; [reflexivity|].
  destruct (str_truthy response); reflexivity.
Qed.

(** [photo_handler] once the file is retrieved: one request, one reply. *)
Lemma photo_handler_run (env : Env) (update : Message) (w : World)
      (p : Media) (rest : list Media) (path : string) (bytes : list Byte.byte) :
  rev (photo update) = p :: rest ->
  get_file env (file_id p) = inr path ->
  download_as_bytearray env path = inr bytes ->
  let user_id := from_user_id update in
  let lang := language_or_english (select_language (users w) user_id) in
  let contents :=
    [SegText (language_instruction lang ++ " Describe this image emotionally.");
     SegBytes bytes "image/jpeg"] in
  photo_handler env update w =
  match generate_content env contents with
  | inr response =>
      (Returned tt,
       mkWorld (users w) (messages w)
               (outbox w ++ [mkReply user_id response None])
               (gen_calls w ++ [contents]) (error_log w))
  | inl e =>
      (Returned tt,
       mkWorld (users w) (messages w)
               (outbox w ++ [mkReply user_id "Couldn't analyze image." None])
               (gen_calls w ++ [contents]) (error_log w ++ [exn_str e]))
  end.
Proof.
  intros Hp Hf Hd. unfold photo_handler, last_item. rewrite Hp. run.
  rewrite Hf. cbn. rewrite Hd. cbn.
  destruct (generate_content env _) as [e|response]; reflexivity.
Qed.

(** [photo_handler] when the retrieval raises: the exception leaves the
    handler and the world is as it was. *)
Lemma photo_handler_raises (env : Env) (update : Message) (w : World)
      (p : Media) (rest : list Media) (e : Exn) :
  rev (photo update) = p :: rest ->
  (get_file env (file_id p) = inl e \/
   exists path, get_file env (file_id p) = inr path /\
                download_as_bytearray env path = inl e) ->
  photo_handler env update w = (Raised e, w).
Proof.
  intros Hp H. unfold photo_handler, last_item. rewrite Hp. run.
  destruct H as [Hf | [path [Hf Hd]]]; rewrite Hf; cbn; [reflexivity|].
  rewrite Hd. reflexivity.
Qed.

(** [audio_handler] once the file is retrieved: one request, one reply. *)
Lemma audio_handler_run (env : Env) (update : Message) (w : World)
      (media : Media) (path : string) (bytes : list Byte.byte) :
  voice_or_audio update = Some media ->
  get_file env (file_id media) = inr path ->
  download_as_bytearray env path = inr bytes ->
  let user_id := from_user_id update in
  let lang := language_or_english (select_language (users w) user_id) in
  let contents :=
    [SegText (language_instruction lang
              ++ " Transcribe this audio and respond emotionally.");
     SegBytes bytes (mime_or_ogg media)] in
  audio_handler env update w =
  match generate_content env contents with
  | inr response =>
      (Returned tt,
       mkWorld (users w) (messages w)
               (outbox w ++ [mkReply user_id response None])
               (gen_calls w ++ [contents]) (error_log w))
  | inl e =>
      (Returned tt,
       mkWorld (users w) (messages w)
               (outbox w ++ [mkReply user_id "Couldn't process audio." None])
               (gen_calls w ++ [contents]) (error_log w ++ [exn_str e]))
  end.
Proof.
  intros Hm Hf Hd. unfold audio_handler. rewrite Hm. run.
  rewrite Hf. cbn. rewrite Hd. cbn.
  destruct (generate_content env _) as [e|response]; reflexivity.
Qed.

Lemma audio_handler_raises (env : Env) (update : Message) (w : World)
      (media : Media) (e : Exn) :
  voice_or_audio update = Some media ->
  (get_file env (file_id media) = inl e \/
   exists path, get_file env (file_id media) = inr path /\
                download_as_bytearray env path = inl e) ->
  audio_handler env update w = (Raised e, w).
Proof.
  intros Hm H. unfold audio_handler. rewrite Hm. run.
  destruct H as [Hf | [path [Hf Hd]]]; rewrite Hf; cbn; [reflexivity|].
  rewrite Hd. reflexivity.
Qed.

(* ------------------------------------------------------------------ *)
(** ** Claims on the preference store *)

(** C4. Reading a user's language after writing it gives the written
    tag; a second write replaces the first.  Under the primary-key
    constraint the table keeps the constraint and holds exactly one row
    for the user, the latest.  Two selection messages of one user, handled
    in turn, leave the later tag as the stored language. *)
Theorem preference_round_trip (tbl : list UserRow) (user_id : Z) (tag tag2 : string) :
  select_language (upsert_user tbl user_id tag) user_id = Some tag /\
  select_language (upsert_user (upsert_user tbl user_id tag) user_id tag2) user_id
  = Some tag2 /\
  (primary_key tbl ->
   primary_key (upsert_user tbl user_id tag) /\
   rows_of (upsert_user tbl user_id tag) user_id = [mkUserRow user_id tag] /\
   rows_of (upsert_user (upsert_user tbl user_id tag) user_id tag2) user_id
   = [mkUserRow user_id tag2]) /\
  (forall (env : Env) (u1 u2 : Message) (w : World) (t1 t2 : string),
      from_user_id u1 = user_id -> from_user_id u2 = user_id ->
      text u1 = Some t1 -> text u2 = Some t2 ->
      normalize_language t1 = Some tag -> normalize_language t2 = Some tag2 ->
      let w1 := snd (text_handler env u1 w) in
      let w2 := snd (text_handler env u2 w1) in
      fst (fetch_language user_id w1) = Returned (Some tag) /\
      fst (fetch_language user_id w2) = Returned (Some tag2)).
Proof.
  split; [apply select_upsert_same|].
  split; [apply select_upsert_same|].
  split.
  - intros Hpk. split; [now apply upsert_primary_key|].
    split; [now apply rows_of_upsert|].
    apply rows_of_upsert. now apply upsert_primary_key.
  - intros env u1 u2 w t1 t2 H1 H2 Ht1 Ht2 Hn1 Hn2 w1 w2.
    subst w2 w1.
    rewrite (text_handler_selection env u1 w t1 tag Ht1 Hn1). cbn [snd].
    rewrite (text_handler_selection env u2 _ t2 tag2 Ht2 Hn2). cbn [snd].
    unfold fetch_language; cbn [fst users]. rewrite H1, H2.
    split; f_equal; apply select_upsert_same.
Qed.

Lemma preference_round_trip_witness :
  rows_of (upsert_user (upsert_user [mkUserRow 7 "English"; mkUserRow 9 "Hindi"]
                                    7 "Bengali") 7 "Hinglish") 7
  = [mkUserRow 7 "Hinglish"] /\
  fst (fetch_language 7
         (snd (text_handler (answering_env "ok") (text_message 7 "ðŸ‡®ðŸ‡³ Hinglish")
                 (snd (text_handler (answering_env "ok") (text_message 7 "Bengali")
                         (mkWorld [mkUserRow 7 "English"; mkUserRow 9 "Hindi"]
                                  [] [] [] [])))))) = Returned (Some "Hinglish").
Proof.
  pose proof (preference_round_trip [mkUserRow 7 "English"; mkUserRow 9 "Hindi"]
                                    7 "Bengali" "Hinglish") as [_ [_ [Hrows Hrun]]].
  split.
  - apply Hrows. unfold primary_key. simpl.
    repeat constructor; simpl; intuition discriminate.
  - apply (Hrun (answering_env "ok") (text_message 7 "Bengali")
                (text_message 7 "ðŸ‡®ðŸ‡³ Hinglish")
                (mkWorld [mkUserRow 7 "English"; mkUserRow 9 "Hindi"] [] [] [] [])
                "Bengali" "ðŸ‡®ðŸ‡³ Hinglish");
      vm_compute; reflexivity.
Defined.

(* ------------------------------------------------------------------ *)
(** ** Claims on the text handler *)

(** C8. A text the resolver classifies as a selection is stored as the
    user's language and answered by one confirmation; the handler returns
    without a generation request and without a row in the message log. *)
Theorem selection_is_consumed (env : Env) (update : Message) (w : World)
        (t tag : string) :
  text update = Some t ->
  normalize_language t = Some tag ->
  let user_id := from_user_id update in
  let w' := snd (text_handler env update w) in
  fst (text_handler env update w) = Returned tt /\
  users w' = upsert_user (users w) user_id tag /\
  select_language (users w') user_id = Some tag /\
  replies_sent w w' = [mkReply user_id ("Language set to " ++ tag ++ " âœ…") None] /\
  requests_made w w' = [] /\ gen_calls w' = gen_calls w /\
  rows_logged w w' = [] /\ messages w' = messages w.
Proof.
  intros Ht Hn user_id w'. subst w'.
  rewrite (text_handler_selection env update w t tag Ht Hn). run.
  repeat split. apply select_upsert_same.
Qed.

Lemma selection_is_consumed_witness :
  replies_sent empty_world
    (snd (text_handler (answering_env "ok") (text_message 7 "ðŸ‡¬ðŸ‡§ English") empty_world))
  = [mkReply 7 "Language set to English âœ…" None] /\
  users (snd (text_handler (answering_env "ok") (text_message 7 "ðŸ‡¬ðŸ‡§ English") empty_world))
  = [mkUserRow 7 "English"].
Proof.
  pose proof (selection_is_consumed (answering_env "ok")
                (text_message 7 "ðŸ‡¬ðŸ‡§ English") empty_world
                "ðŸ‡¬ðŸ‡§ English" "English" eq_refl) as H.
  assert (Hn : normalize_language "ðŸ‡¬ðŸ‡§ English" = Some "English")
    by (vm_compute; reflexivity).
  destruct (H Hn) as [_ [Hu [_ [Hr _]]]].
  split; [exact Hr | exact Hu].
Defined.

(** C5, as stated, fails: the generation call may return an empty text;
    the handler then sends the fallback and logs no row. *)
Lemma empty_response_is_not_logged :
  let env := answering_env "" in
  let update := text_message 7 "hello" in
  let w := mkWorld [mkUserRow 7 "English"] [] [] [] [] in
  let w' := snd (text_handler env update w) in
  normalize_language "hello" = None /\
  select_language (users w) 7 = Some "English" /\
  generate_content env [SegText (text_prompt (Some "English")); SegText "hello"]
  = inr "" /\
  rows_logged w w' = [] /\
  replies_sent w w' = [mkReply 7 "Error generating response." None] /\
  ~ (forall (env : Env) (update : Message) (w : World) (t lang response : string),
        text update = Some t ->
        normalize_language t = None ->
        select_language (users w) (from_user_id update) = Some lang ->
        generate_content env [SegText (text_prompt (Some lang)); SegText t]
        = inr response ->
        length (rows_logged w (snd (text_handler env update w))) = 1%nat).
Proof.
  intros env update w w'.
  repeat split; try (vm_compute; reflexivity).
  intros H.
  specialize (H env update w "hello" "English" "" eq_refl eq_refl eq_refl eq_refl).
  vm_compute in H. discriminate.
Qed.

(** C5, amended. For a text that is no selection, from a user with a
    stored language: one generation request is made; when it returns a
    non-empty text, one row with the user, the text, no mood score and
    the current time is logged and the text is the reply; when it raises
    or returns an empty text, no row is logged and the reply is
    "Error generating response.". *)
Theorem text_generation_outcome (env : Env) (update : Message) (w : World)
        (t lang : string) :
  text update = Some t ->
  normalize_language t = None ->
  select_language (users w) (from_user_id update) = Some lang ->
  let user_id := from_user_id update in
  let contents := [SegText (text_prompt (Some lang)); SegText t] in
  let w' := snd (text_handler env update w) in
  fst (text_handler env update w) = Returned tt /\
  requests_made w w' = [contents] /\
  users w' = users w /\
  match generate_content env contents with
  | inr response =>
      if str_truthy response then
        rows_logged w w' = [mkMessageRow user_id t None (Some (now env))] /\
        (forall row, In row (rows_logged w w') ->
                     m_text row = t /\ m_timestamp row <> None) /\
        replies_sent w w' = [mkReply user_id response None]
      else
        rows_logged w w' = [] /\
        replies_sent w w' = [mkReply user_id "Error generating response." None]
  | inl _ =>
      rows_logged w w' = [] /\
      replies_sent w w' = [mkReply user_id "Error generating response." None]
  end.
Proof.
  intros Ht Hn Hs user_id contents w'. subst w' contents user_id.
  rewrite (text_handler_content env update t Ht Hn), text_content_run.
  cbv zeta. rewrite Hs.
  destruct (generate_content env _) as [e|response].
  - run. repeat split.
  - destruct (str_truthy response); run; repeat split.
    + destruct H as [<-|[]]. reflexivity.
    + destruct H as [<-|[]]. discriminate.
Qed.

Lemma text_generation_outcome_witness :
  rows_logged (mkWorld [mkUserRow 7 "English"] [] [] [] [])
    (snd (text_handler (answering_env "That sounds hard.")
            (text_message 7 "I feel anxious today")
            (mkWorld [mkUserRow 7 "English"] [] [] [] [])))
  = [mkMessageRow 7 "I feel anxious today" None (Some 0)].
Proof.
  pose proof (text_generation_outcome (answering_env "That sounds hard.")
                (text_message 7 "I feel anxious today")
                (mkWorld [mkUserRow 7 "English"] [] [] [] [])
                "I feel anxious today" "English" eq_refl) as H.
  assert (Hn : normalize_language "I feel anxious today" = None)
    by (vm_compute; reflexivity).
  destruct (H Hn eq_refl) as [_ [_ [_ Hgen]]].
  cbn in Hgen. destruct Hgen as [Hrows _]. exact Hrows.
Defined.

(** C10. The substring test is case-sensitive: "english" is "English" in
    another letter case, contains none of the five names and resolves to
    [None]; [text_handler] treats it as content and leaves the stored
    languages as they are. *)
Theorem lowercase_name_is_not_a_selection :
  lower "english" = lower (tag_name English) /\
  (forall l : Lang, contains (tag_name l) "english" = false) /\
  normalize_language "english" = None /\
  (forall (env : Env) (user_id : Z) (w : World),
      text_handler env (text_message user_id "english") w =
      text_content env (text_message user_id "english") "english" w /\
      users (snd (text_handler env (text_message user_id "english") w)) = users w).
Proof.
  split; [reflexivity|].
  split; [intros l; destruct l; vm_compute; reflexivity|].
  split; [vm_compute; reflexivity|].
  intros env user_id w.
  assert (E : text_handler env (text_message user_id "english") =
              text_content env (text_message user_id "english") "english").
  { apply text_handler_content; [reflexivity | vm_compute; reflexivity]. }
  rewrite E. split; [reflexivity|].
  rewrite text_content_run. cbv zeta.
  destruct (select_language _ _); [|reflexivity].
  destruct (generate_content env _) as [e|response]; [reflexivity|].
  destruct (str_truthy response); reflexivity.
Qed.

(* ------------------------------------------------------------------ *)
(** ** Claims on the media handlers *)

(** C9. [video_handler] sends the one static reply and returns; it makes
    no generation request and writes neither table. *)
Theorem video_handler_static (env : Env) (update : Message) (w : World) :
  let w' := snd (video_handler env update w) in
  fst (video_handler env update w) = Returned tt /\
  replies_sent w w' =
  [mkReply (from_user_id update)
           "Video analysis currently limited. Coming soon ðŸ”¥" None] /\
  requests_made w w' = [] /\ gen_calls w' = gen_calls w /\
  users w' = users w /\ messages w' = messages w.
Proof. unfold video_handler. run. repeat split. Qed.

(** Either the retrieval raises and [photo_handler] stops there, or the
    file of the last photo size is retrieved. *)
Lemma photo_handler_cases (env : Env) (update : Message) (w : World) :
  (exists e, photo_handler env update w = (Raised e, w)) \/
  (exists p rest path bytes,
      rev (photo update) = p :: rest /\
      get_file env (file_id p) = inr path /\
      download_as_bytearray env path = inr bytes).
Proof.
  destruct (rev (photo update)) as [|p rest] eqn:Hp.
  - left. exists IndexError. unfold photo_handler, last_item. now rewrite Hp.
  - destruct (get_file env (file_id p)) as [e|path] eqn:Hf.
    + left. exists e. eapply photo_handler_raises; eauto.
    + destruct (download_as_bytearray env path) as [e|bytes] eqn:Hd.
      * left. exists e. eapply photo_handler_raises; eauto.
      * right. exists p, rest, path, bytes. auto.
Qed.

Lemma audio_handler_cases (env : Env) (update : Message) (w : World) :
  (exists e, audio_handler env update w = (Raised e, w)) \/
  (exists media path bytes,
      voice_or_audio update = Some media /\
      get_file env (file_id media) = inr path /\
      download_as_bytearray env path = inr bytes).
Proof.
  destruct (voice_or_audio update) as [media|] eqn:Hm.
  - destruct (get_file env (file_id media)) as [e|path] eqn:Hf.
    + left. exists e. eapply audio_handler_raises; eauto.
    + destruct (download_as_bytearray env path) as [e|bytes] eqn:Hd.
      * left. exists e. eapply audio_handler_raises; eauto.
      * right. exists media, path, bytes. auto.
  - left. exists AttributeError. unfold audio_handler. now rewrite Hm.
Qed.

Lemma rev_last_size {A} (sizes : list A) (p : A) (xs : list A) :
  xs = (sizes ++ [p])%list -> rev xs = p :: rev sizes.
Proof. intros ->. now rewrite rev_app_distr. Qed.

Lemma voice_first (update : Message) (v : Media) :
  voice update = Some v -> voice_or_audio update = Some v.
Proof. unfold voice_or_audio. now intros ->. Qed.

Lemma audio_second (update : Message) (a : Media) :
  voice update = None -> audio update = Some a -> voice_or_audio update = Some a.
Proof. unfold voice_or_audio. now intros -> ->. Qed.

(** C6. With no stored language for the sender: [photo_handler] and
    [audio_handler] never send a reply with the language keyboard and
    every generation request they make opens with the English instruction;
    for a photo, for a voice note and for an audio file whose file is
    retrieved they make exactly one such request and send one reply;
    [text_handler], on a text that is no selection, makes no generation
    request and sends the one reply "Please select language first." with
    the language keyboard. *)
Theorem unset_preference_media_and_text (env : Env) (update : Message) (w : World) :
  select_language (users w) (from_user_id update) = None ->
  (let w' := snd (photo_handler env update w) in
   (forall r, In r (replies_sent w w') -> reply_markup r = None) /\
   (forall c, In c (requests_made w w') ->
      exists bytes,
        c = [SegText "Respond in English. Describe this image emotionally.";
             SegBytes bytes "image/jpeg"]) /\
   (forall sizes p, photo update = (sizes ++ [p])%list -> retrievable env p ->
      length (requests_made w w') = 1%nat /\
      length (replies_sent w w') = 1%nat)) /\
  (let w' := snd (audio_handler env update w) in
   (forall r, In r (replies_sent w w') -> reply_markup r = None) /\
   (forall c, In c (requests_made w w') ->
      exists bytes mime,
        c = [SegText "Respond in English. Transcribe this audio and respond emotionally.";
             SegBytes bytes mime]) /\
   (forall v, voice update = Some v -> retrievable env v ->
      length (requests_made w w') = 1%nat /\
      length (replies_sent w w') = 1%nat) /\
   (forall a, voice update = None -> audio update = Some a -> retrievable env a ->
      length (requests_made w w') = 1%nat /\
      length (replies_sent w w') = 1%nat)) /\
  (forall t, text update = Some t -> normalize_language t = None ->
     let w' := snd (text_handler env update w) in
     requests_made w w' = [] /\
     replies_sent w w' =
     [mkReply (from_user_id update) "Please select language first."
              (Some LANGUAGE_KEYBOARD)]).
Proof.
  intros Hs.
  assert (Haudio : forall media, voice_or_audio update = Some media ->
            retrievable env media ->
            length (requests_made w (snd (audio_handler env update w))) = 1%nat /\
            length (replies_sent w (snd (audio_handler env update w))) = 1%nat).
  { intros media Hm [path [bytes [Hf Hd]]].
    rewrite (audio_handler_run env update w media path bytes Hm Hf Hd).
    cbv zeta.
    destruct (generate_content env _) as [e|response]; run; split; reflexivity. }
  repeat apply conj.
  - intros r Hr.
    destruct (photo_handler_cases env update w)
      as [[e He] | [p [rest [path [bytes [Hp [Hf Hd]]]]]]].
    + rewrite He in Hr. run. destruct Hr.
    + rewrite (photo_handler_run env update w p rest path bytes Hp Hf Hd) in Hr.
      cbv zeta in Hr.
      destruct (generate_content env _) as [e|response]; run;
        destruct Hr as [<-|[]]; reflexivity.
  - intros c Hc.
    destruct (photo_handler_cases env update w)
      as [[e He] | [p [rest [path [bytes [Hp [Hf Hd]]]]]]].
    + rewrite He in Hc. run. destruct Hc.
    + rewrite (photo_handler_run env update w p rest path bytes Hp Hf Hd) in Hc.
      cbv zeta in Hc. rewrite Hs in Hc. cbn [language_or_english] in Hc.
      destruct (generate_content env _) as [e|response]; run;
        destruct Hc as [<-|[]]; exists bytes; reflexivity.
  - intros sizes p Hp [path [bytes [Hf Hd]]].
    rewrite (photo_handler_run env update w p (rev sizes) path bytes
               (rev_last_size sizes p _ Hp) Hf Hd).
    cbv zeta.
    destruct (generate_content env _) as [e|response]; run; split; reflexivity.
  - intros r Hr.
    destruct (audio_handler_cases env update w)
      as [[e He] | [media [path [bytes [Hm [Hf Hd]]]]]].
    + rewrite He in Hr. run. destruct Hr.
    + rewrite (audio_handler_run env update w media path bytes Hm Hf Hd) in Hr.
      cbv zeta in Hr.
      destruct (generate_content env _) as [e|response]; run;
        destruct Hr as [<-|[]]; reflexivity.
  - intros c Hc.
    destruct (audio_handler_cases env update w)
      as [[e He] | [media [path [bytes [Hm [Hf Hd]]]]]].
    + rewrite He in Hc. run. destruct Hc.
    + rewrite (audio_handler_run env update w media path bytes Hm Hf Hd) in Hc.
      cbv zeta in Hc. rewrite Hs in Hc. cbn [language_or_english] in Hc.
      destruct (generate_content env _) as [e|response]; run;
        destruct Hc as [<-|[]]; exists bytes, (mime_or_ogg media); reflexivity.
  - intros v Hv. apply Haudio, voice_first, Hv.
  - intros a Hv Ha. apply Haudio, audio_second; assumption.
  - intros t Ht Hn w'. subst w'.
    rewrite (text_handler_content env update t Ht Hn), text_content_run.
    cbv zeta. rewrite Hs. run. split; reflexivity.
Qed.

Lemma unset_preference_media_and_text_witness :
  length (requests_made empty_world
            (snd (photo_handler (answering_env "A calm picture.")
                    (photo_message 7 [mkMedia 1 None; mkMedia 2 None]) empty_world)))
  = 1%nat /\
  length (requests_made empty_world
            (snd (audio_handler (answering_env "I hear you.")
                    (voice_message 7 (mkMedia 3 None)) empty_world)))
  = 1%nat /\
  length (requests_made empty_world
            (snd (audio_handler (answering_env "I hear you.")
                    (audio_message 7 (mkMedia 4 (Some "audio/mpeg"))) empty_world)))
  = 1%nat /\
  replies_sent empty_world
    (snd (text_handler (answering_env "ok") (text_message 7 "hello") empty_world))
  = [mkReply 7 "Please select language first." (Some LANGUAGE_KEYBOARD)].
Proof.
  repeat apply conj.
  - pose proof (unset_preference_media_and_text (answering_env "A calm picture.")
                  (photo_message 7 [mkMedia 1 None; mkMedia 2 None]) empty_world
                  eq_refl) as [[_ [_ Hphoto]] _].
    apply (Hphoto [mkMedia 1 None] (mkMedia 2 None)); [reflexivity|].
    exists "photos/file_0.jpg", []. split; reflexivity.
  - pose proof (unset_preference_media_and_text (answering_env "I hear you.")
                  (voice_message 7 (mkMedia 3 None)) empty_world
                  eq_refl) as [_ [[_ [_ [Hvoice _]]] _]].
    apply (Hvoice (mkMedia 3 None)); [reflexivity|].
    exists "photos/file_0.jpg", []. split; reflexivity.
  - pose proof (unset_preference_media_and_text (answering_env "I hear you.")
                  (audio_message 7 (mkMedia 4 (Some "audio/mpeg"))) empty_world
                  eq_refl) as [_ [[_ [_ [_ Haudio]]] _]].
    apply (Haudio (mkMedia 4 (Some "audio/mpeg"))); [reflexivity | reflexivity |].
    exists "photos/file_0.jpg", []. split; reflexivity.
  - pose proof (unset_preference_media_and_text (answering_env "ok")
                  (text_message 7 "hello") empty_world eq_refl) as [_ [_ Htext]].
    apply (Htext "hello"); [reflexivity | vm_compute; reflexivity].
Defined.

(* ------------------------------------------------------------------ *)
(** ** Dispatch *)

(** [process_update] runs the handler of the message's kind and catches
    what it raises. *)
Lemma process_update_kind (env : Env) (update : Message) (w : World) :
  process_update env update w =
  match kind_of update with
  | Some k => caught (handler_of k env update w)
  | None => (Returned tt, w)
  end.
Proof.
  unfold process_update, kind_of, handlers. cbn [find fst snd].
  repeat match goal with |- context [if ?b then _ else _] => destruct b end;
    reflexivity.
Qed.

Lemma kind_of_filter (update : Message) (k : Kind) :
  kind_of update = Some k ->
  match k with
  | KStart => filter_command "start" update
  | KLanguage => filter_command "language" update
  | KText => filter_text update
  | KPhoto => filter_photo update
  | KVoiceAudio => filter_voice_audio update
  | KVideo => filter_video update
  end = true.
Proof.
  unfold kind_of.
  repeat match goal with
         | |- context [if ?b then _ else _] => destruct b eqn:?
         end; intros H; inversion H; subst; reflexivity.
Qed.

(** C1, the failing run. The file lookup of a photo or of a voice note
    times out: the exception leaves the handler, which has sent nothing;
    the SDK logs it, and the sender gets no reply. *)
Theorem retrieval_failure_is_unanswered (user_id : Z) (media : Media) (w : World) :
  photo_handler unreachable_env (photo_message user_id [media]) w
  = (Raised (TelegramError "Timed out"), w) /\
  audio_handler unreachable_env (voice_message user_id media) w
  = (Raised (TelegramError "Timed out"), w) /\
  kind_of (photo_message user_id [media]) = Some KPhoto /\
  kind_of (voice_message user_id media) = Some KVoiceAudio /\
  replies_sent w (snd (process_update unreachable_env (photo_message user_id [media]) w))
  = [] /\
  replies_sent w (snd (process_update unreachable_env (voice_message user_id media) w))
  = [].
Proof.
  assert (Hp : photo_handler unreachable_env (photo_message user_id [media]) w
               = (Raised (TelegramError "Timed out"), w)) by reflexivity.
  assert (Ha : audio_handler unreachable_env (voice_message user_id media) w
               = (Raised (TelegramError "Timed out"), w)) by reflexivity.
  repeat split; try assumption.
  - rewrite process_update_kind. cbn [kind_of]. 
    change (kind_of (photo_message user_id [media])) with (Some KPhoto).
    cbn [handler_of]. rewrite Hp. run. reflexivity.
  - rewrite process_update_kind.
    change (kind_of (voice_message user_id media)) with (Some KVoiceAudio).
    cbn [handler_of]. rewrite Ha. run. reflexivity.
Qed.

(* ------------------------------------------------------------------ *)
(** ** Scenarios *)

(** A new user sends /start, picks English on the keyboard and then
    writes a sentence: prompt, confirmation and relayed answer, with one
    stored language, one generation request and one logged row. *)
Example first_conversation :
  let env := answering_env "That sounds hard." in
  let w1 := snd (process_update env (command_message 7 "start") empty_world) in
  let w2 := snd (process_update env (text_message 7 "ðŸ‡¬ðŸ‡§ English") w1) in
  let w3 := snd (process_update env (text_message 7 "I feel anxious today") w2) in
  map body (outbox w3) =
  ["Select your language:"; "Language set to English âœ…"; "That sounds hard."] /\
  users w3 = [mkUserRow 7 "English"] /\
  gen_calls w3 = [[SegText (text_prompt (Some "English"));
                   SegText "I feel anxious today"]] /\
  messages w3 = [mkMessageRow 7 "I feel anxious today" None (Some 0)].
Proof. vm_compute. repeat split. Qed.

(** A video from a user without a stored language: the static reply and
    nothing else. *)
Example video_scenario :
  process_update (answering_env "unused") (video_message 7 (mkMedia 5 None)) empty_world
  = (Returned tt,
     mkWorld [] []
             [mkReply 7 "Video analysis currently limited. Coming soon ðŸ”¥" None]
             [] []).
Proof. reflexivity. Qed.

(* ================================================================== *)
(** * Further properties of the handlers *)

(** Splits a goal about [process_update env update w] into one goal per
    path through the handlers, each with the run replaced by its result. *)
Ltac by_path env update w :=
  rewrite ?process_update_kind;
  let Hkind := fresh "Hkind" in
  destruct (kind_of update) as [[]|] eqn:Hkind; cbn [handler_of];
  [ unfold start; run;
    destruct (select_language (users w) (from_user_id update)) as [lang|] eqn:Hsel
  | unfold language_cmd
  | destruct (text update) as [t|] eqn:Ht;
    [ destruct (normalize_language t) as [tag|] eqn:Hn;
      [ rewrite (text_handler_selection env update w t tag Ht Hn)
      | rewrite (text_handler_content env update t Ht Hn), text_content_run;
        cbv zeta;
        destruct (select_language (users w) (from_user_id update)) as [lang|] eqn:Hsel;
        [ destruct (generate_content env [SegText (text_prompt (Some lang)); SegText t])
            as [e|response] eqn:Hgen;
          [ | destruct (str_truthy response) eqn:Htruthy ]
        | ] ]
    | unfold text_handler; rewrite Ht ]
  | destruct (photo_handler_cases env update w)
      as [[e He] | [p [rest [path [bytes [Hp [Hf Hd]]]]]]];
    [ rewrite He
    | rewrite (photo_handler_run env update w p rest path bytes Hp Hf Hd);
      cbv zeta;
      match goal with
      | |- context [generate_content env ?c] =>
          destruct (generate_content env c) as [e|response] eqn:Hgen
      end ]
  | destruct (audio_handler_cases env update w)
      as [[e He] | [media [path [bytes [Hm [Hf Hd]]]]]];
    [ rewrite He
    | rewrite (audio_handler_run env update w media path bytes Hm Hf Hd);
      cbv zeta;
      match goal with
      | |- context [generate_content env ?c] =>
          destruct (generate_content env c) as [e|response] eqn:Hgen
      end ]
  | unfold video_handler
  | ];
  run.

(* ------------------------------------------------------------------ *)
(** ** What a run adds *)

(** X1. A run only appends: the replies, the generation requests, the
    log rows and the error log of the world before it are each a prefix
    of those after it, whatever the message and the collaborators do. *)
Theorem process_update_appends (env : Env) (update : Message) (w : World) :
  let w' := snd (process_update env update w) in
  outbox w' = (outbox w ++ replies_sent w w')%list /\
  gen_calls w' = (gen_calls w ++ requests_made w w')%list /\
  messages w' = (messages w ++ rows_logged w w')%list /\
  exists logged, error_log w' = (error_log w ++ logged)%list.
Proof.
  cbv zeta. by_path env update w;
    rewrite ?app_nil_r; repeat split;
    solve [ eexists; reflexivity | exists []; now rewrite app_nil_r ].
Qed.

(** X2. A run logs at most one row, and only for a plain text that is
    no selection: the row holds the sender, the text as sent, no mood
    score and the current time, and the stored languages are untouched. *)
Theorem log_row_is_answered_text (env : Env) (update : Message) (w : World) :
  let w' := snd (process_update env update w) in
  forall row, In row (rows_logged w w') ->
    rows_logged w w' = [row] /\
    kind_of update = Some KText /\
    text update = Some (m_text row) /\
    normalize_language (m_text row) = None /\
    m_user_id row = from_user_id update /\
    m_mood_score row = None /\
    m_timestamp row = Some (now env) /\
    users w' = users w.
Proof.
  cbv zeta. by_path env update w; intros row Hrow; try (now destruct Hrow).
  destruct Hrow as [<-|[]]. cbn. repeat split; assumption.
Qed.

Lemma log_row_is_answered_text_witness :
  kind_of (text_message 7 "I feel anxious today") = Some KText /\
  m_timestamp (mkMessageRow 7 "I feel anxious today" None (Some 0)) = Some 0.
Proof.
  pose proof (log_row_is_answered_text (answering_env "That sounds hard.")
                (text_message 7 "I feel anxious today")
                (mkWorld [mkUserRow 7 "English"] [] [] [] [])
                (mkMessageRow 7 "I feel anxious today" None (Some 0))) as H.
  cbv zeta in H.
  assert (Hin : In (mkMessageRow 7 "I feel anxious today" None (Some 0))
                   (rows_logged (mkWorld [mkUserRow 7 "English"] [] [] [] [])
                      (snd (process_update (answering_env "That sounds hard.")
                              (text_message 7 "I feel anxious today")
                              (mkWorld [mkUserRow 7 "English"] [] [] [] [])))))
    by (vm_compute; left; reflexivity).
  destruct (H Hin) as [_ [Hk [_ [_ [_ [_ [Hts _]]]]]]].
  split; [exact Hk | exact Hts].
Defined.

(** X3. A run makes at most one generation request, never a second try.
    It makes none for a command, a video or a dropped message, and for a
    text only when the text is no selection and the sender has a stored
    language. *)
Theorem at_most_one_request (env : Env) (update : Message) (w : World) :
  let w' := snd (process_update env update w) in
  (length (requests_made w w') <= 1)%nat /\
  (requests_made w w' <> [] ->
   match kind_of update with
   | Some KText =>
       exists t lang,
         text update = Some t /\ normalize_language t = None /\
         select_language (users w) (from_user_id update) = Some lang /\
         requests_made w w' = [[SegText (text_prompt (Some lang)); SegText t]]
   | Some KPhoto | Some KVoiceAudio => True
   | _ => False
   end).
Proof.
  cbv zeta. by_path env update w; (split; [cbn; lia|]); intros Hne;
    try (now destruct Hne); try exact I; eauto 6.
Qed.

Lemma at_most_one_request_witness :
  exists t lang,
    text (text_message 7 "hello") = Some t /\ normalize_language t = None /\
    select_language [mkUserRow 7 "Hindi"] 7 = Some lang /\
    requests_made (mkWorld [mkUserRow 7 "Hindi"] [] [] [] [])
      (snd (process_update (answering_env "ok") (text_message 7 "hello")
              (mkWorld [mkUserRow 7 "Hindi"] [] [] [] [])))
    = [[SegText (text_prompt (Some lang)); SegText t]].
Proof.
  apply (proj2 (at_most_one_request (answering_env "ok") (text_message 7 "hello")
                  (mkWorld [mkUserRow 7 "Hindi"] [] [] [] []))).
  vm_compute. discriminate.
Defined.

(* ------------------------------------------------------------------ *)
(** ** The preference table across runs *)

Lemma select_upsert_known (tbl : list UserRow) (user_id u : Z) (language : string) :
  select_language tbl u <> None ->
  select_language (upsert_user tbl user_id language) u <> None.
Proof.
  intros H. destruct (Z.eq_dec u user_id) as [->|N].
  - rewrite select_upsert_same. discriminate.
  - now rewrite select_upsert_other.
Qed.

(** What a run does to the preference table: nothing, or the upsert of a
    selection sent as plain text. *)
Lemma process_update_users (env : Env) (update : Message) (w : World) :
  users (snd (process_update env update w)) = users w \/
  exists t tag,
    kind_of update = Some KText /\ text update = Some t /\
    normalize_language t = Some tag /\
    users (snd (process_update env update w))
    = upsert_user (users w) (from_user_id update) tag.
Proof.
  by_path env update w; auto. right. exists t, tag. auto.
Qed.

(** X5. A run never touches the language of a user other than the sender,
    and never removes a stored language: a user who has one before the
    run has one after it. *)
Theorem preferences_of_others_kept (env : Env) (update : Message) (w : World) :
  let w' := snd (process_update env update w) in
  (forall other, other <> from_user_id update ->
     select_language (users w') other = select_language (users w) other) /\
  (forall u, select_language (users w) u <> None ->
     select_language (users w') u <> None).
Proof.
  cbv zeta.
  destruct (process_update_users env update w) as [E | [t [tag [_ [_ [_ E]]]]]];
    rewrite E; split; auto.
  - intros other N. now apply select_upsert_other.
  - intros u H. now apply select_upsert_known.
Qed.

Lemma preferences_of_others_kept_witness :
  select_language
    (users (snd (process_update (answering_env "ok") (text_message 7 "Bengali")
                   (mkWorld [mkUserRow 9 "Hindi"] [] [] [] [])))) 9
  = Some "Hindi".
Proof.
  apply (proj1 (preferences_of_others_kept (answering_env "ok")
                  (text_message 7 "Bengali")
                  (mkWorld [mkUserRow 9 "Hindi"] [] [] [] [])) 9).
  discriminate.
Defined.

(** X6. The stored language of the sender changes only through a plain
    text that the resolver takes for a selection: commands, media and
    answered texts leave the table as it is, also when the generation
    call fails or the retrieval raises. *)
Theorem table_changes_only_by_selection (env : Env) (update : Message) (w : World) :
  users (snd (process_update env update w)) <> users w ->
  exists t tag,
    kind_of update = Some KText /\ text update = Some t /\
    normalize_language t = Some tag /\
    select_language (users (snd (process_update env update w))) (from_user_id update)
    = Some tag.
Proof.
  intros Hne.
  destruct (process_update_users env update w) as [E | [t [tag [Hk [Ht [Hn E]]]]]];
    [contradiction|].
  exists t, tag. rewrite E. repeat split; auto. apply select_upsert_same.
Qed.

Lemma table_changes_only_by_selection_witness :
  exists t tag,
    kind_of (text_message 7 "ðŸ‡®ðŸ‡³ Hindi") = Some KText /\
    text (text_message 7 "ðŸ‡®ðŸ‡³ Hindi") = Some t /\
    normalize_language t = Some tag /\
    select_language
      (users (snd (process_update (answering_env "ok") (text_message 7 "ðŸ‡®ðŸ‡³ Hindi")
                     empty_world))) 7 = Some tag.
Proof.
  apply (table_changes_only_by_selection (answering_env "ok")
           (text_message 7 "ðŸ‡®ðŸ‡³ Hindi") empty_world).
  vm_compute. discriminate.
Defined.

Lemma is_tag_name (l : Lang) : is_tag (tag_name l) = true.
Proof. destruct l; reflexivity. Qed.

Lemma upsert_valid_languages (tbl : list UserRow) (user_id : Z) (language : string) :
  is_tag language = true ->
  valid_languages tbl -> valid_languages (upsert_user tbl user_id language).
Proof.
  intros Htag. unfold valid_languages.
  induction tbl as [|r tbl IH]; simpl; intros H.
  - constructor; [exact Htag | constructor].
  - inversion H as [|? ? Hr Hrest]; subst.
    destruct (u_user_id r =? user_id); constructor; auto.
Qed.

(** One run keeps both table invariants. *)
Lemma process_update_invariants (env : Env) (update : Message) (w : World) :
  primary_key (users w) /\ valid_languages (users w) ->
  primary_key (users (snd (process_update env update w))) /\
  valid_languages (users (snd (process_update env update w))).
Proof.
  intros [Hpk Hval].
  destruct (process_update_users env update w) as [E | [t [tag [_ [_ [Hn E]]]]]];
    rewrite E; [auto|].
  split; [now apply upsert_primary_key|].
  apply upsert_valid_languages; [|assumption].
  destruct (normalize_language_is_tag t tag Hn) as [l ->]. apply is_tag_name.
Qed.

(** X7. Whatever updates are handled in whatever order, and however the
    collaborators answer, a table that has one row per user and only the
    five tags as languages stays so; in particular every table reached
    from the empty one has these two properties. *)
Theorem table_invariants_over_runs (trace : list (Env * Message)) (w : World) :
  (primary_key (users w) /\ valid_languages (users w) ->
   primary_key (users (run_updates trace w)) /\
   valid_languages (users (run_updates trace w))) /\
  primary_key (users (run_updates trace empty_world)) /\
  valid_languages (users (run_updates trace empty_world)).
Proof.
  assert (Hstep : forall tr w0,
             primary_key (users w0) /\ valid_languages (users w0) ->
             primary_key (users (run_updates tr w0)) /\
             valid_languages (users (run_updates tr w0))).
  { induction tr as [|[env update] tr IH]; intros w0 H; [exact H|].
    unfold run_updates. cbn [fold_left fst snd].
    apply IH. now apply process_update_invariants. }
  split; [apply Hstep|].
  apply Hstep. split; constructor.
Qed.

Lemma table_invariants_over_runs_witness :
  primary_key
    (users (run_updates [(answering_env "ok", text_message 9 "Hinglish please");
                         (answering_env "ok", text_message 7 "Bengali")]
              (mkWorld [mkUserRow 7 "English"] [] [] [] []))).
Proof.
  apply (proj1 (table_invariants_over_runs
                  [(answering_env "ok", text_message 9 "Hinglish please");
                   (answering_env "ok", text_message 7 "Bengali")]
                  (mkWorld [mkUserRow 7 "English"] [] [] [] []))).
  split.
  - unfold primary_key. simpl. repeat constructor. simpl. intuition.
  - unfold valid_languages. repeat constructor.
Defined.

(** X8. The upsert is idempotent, and it adds a row exactly when the user
    has none: the table grows by one for a new user and keeps its length
    for a known one. *)
Theorem upsert_user_idempotent (tbl : list UserRow) (user_id : Z) (language : string) :
  upsert_user (upsert_user tbl user_id language) user_id language
  = upsert_user tbl user_id language /\
  length (upsert_user tbl user_id language)
  = (length tbl + match select_language tbl user_id with
                  | Some _ => 0
                  | None => 1
                  end)%nat.
Proof.
  induction tbl as [|r tbl [IH1 IH2]]; simpl.
  - rewrite Z.eqb_refl. split; reflexivity.
  - destruct (u_user_id r =? user_id) eqn:E; simpl.
    + rewrite Z.eqb_refl. split; [reflexivity | lia].
    + rewrite E, IH1, IH2. split; reflexivity.
Qed.

(* ------------------------------------------------------------------ *)
(** ** Texts, selections and prompts *)

Lemma normalize_language_some (t : string) (l : Lang) :
  contains (tag_name l) t = true ->
  exists l', normalize_language t = Some (tag_name l').
Proof.
  intros H. destruct (normalize_language t) as [tag|] eqn:E.
  - destruct (normalize_language_is_tag t tag E) as [l' ->]. eauto.
  - exfalso. unfold normalize_language in E.
    destruct (contains "Hinglish" t) eqn:E1; [discriminate|].
    destruct (contains "Bengalish" t) eqn:E2; [discriminate|].
    destruct (contains "English" t) eqn:E3; [discriminate|].
    destruct (contains "Hindi" t) eqn:E4; [discriminate|].
    destruct (contains "Bengali" t) eqn:E5; [discriminate|].
    destruct l; cbn [tag_name] in H; congruence.
Qed.

(** X9. A plain text that mentions one of the five names anywhere, with
    whatever before and after it, is taken for a selection: the sender's
    language is overwritten with one of the five tags, the one reply is
    the confirmation, and the text reaches neither the generation service
    nor the message log. *)
Theorem mention_is_a_selection (env : Env) (update : Message) (w : World)
        (pre post : string) (l : Lang) :
  text update = Some (pre ++ tag_name l ++ post) ->
  let user_id := from_user_id update in
  let w' := snd (text_handler env update w) in
  exists l',
    select_language (users w') user_id = Some (tag_name l') /\
    replies_sent w w' =
    [mkReply user_id ("Language set to " ++ tag_name l' ++ " âœ…") None] /\
    requests_made w w' = [] /\ rows_logged w w' = [].
Proof.
  intros Ht user_id w'. subst user_id w'.
  assert (Hc : contains (tag_name l) (pre ++ tag_name l ++ post) = true)
    by (apply contains_iff; eauto).
  destruct (normalize_language_some _ l Hc) as [l' Hn].
  exists l'. rewrite (text_handler_selection env update w _ _ Ht Hn). run.
  repeat split. apply select_upsert_same.
Qed.

Lemma mention_is_a_selection_witness :
  exists l',
    select_language
      (users (snd (text_handler (answering_env "ok")
                     (text_message 7 "My English homework is hard")
                     (mkWorld [mkUserRow 7 "Hindi"] [] [] [] [])))) 7
    = Some (tag_name l') /\
    requests_made (mkWorld [mkUserRow 7 "Hindi"] [] [] [] [])
      (snd (text_handler (answering_env "ok")
              (text_message 7 "My English homework is hard")
              (mkWorld [mkUserRow 7 "Hindi"] [] [] [] []))) = [].
Proof.
  destruct (mention_is_a_selection (answering_env "ok")
              (text_message 7 "My English homework is hard")
              (mkWorld [mkUserRow 7 "Hindi"] [] [] [] [])
              "My " " homework is hard" English eq_refl) as [l' [Hs [_ [Hr _]]]].
  exists l'. split; [exact Hs | exact Hr].
Defined.

(** X10. After a selection of language [l], the same user is greeted by
    /start instead of being prompted, and the next text that is no
    selection is sent to the generation service under the persona prompt
    with the directive of [l], followed by the text itself. *)
Theorem selection_then_text (env : Env) (u1 u2 : Message) (w : World)
        (t1 t2 : string) (l : Lang) :
  from_user_id u2 = from_user_id u1 ->
  text u1 = Some t1 -> normalize_language t1 = Some (tag_name l) ->
  text u2 = Some t2 -> normalize_language t2 = None ->
  let w1 := snd (text_handler env u1 w) in
  replies_sent w1 (snd (start env u2 w1))
  = [mkReply (from_user_id u1) "Hi. Tell me what's on your mind." None] /\
  requests_made w1 (snd (text_handler env u2 w1))
  = [[SegText (nl ++ "You are MirrorMind Pro." ++ nl ++
               directive l ++ nl ++
               nl ++
               "Tone:" ++ nl ++
               "- Warm" ++ nl ++
               "- Emotionally intelligent" ++ nl ++
               "- Supportive" ++ nl ++
               nl ++
               "Respond in 4â€“6 sentences." ++ nl);
      SegText t2]].
Proof.
  intros Hu Ht1 Hn1 Ht2 Hn2 w1. subst w1.
  rewrite (text_handler_selection env u1 w t1 _ Ht1 Hn1). cbn [snd].
  split.
  - unfold start. run. rewrite Hu, select_upsert_same. run. reflexivity.
  - rewrite (text_handler_content env u2 t2 Ht2 Hn2), text_content_run.
    cbv zeta. cbn [users]. rewrite Hu, select_upsert_same.
    assert (Hp : text_prompt (Some (tag_name l)) =
                 nl ++ "You are MirrorMind Pro." ++ nl ++ directive l ++ nl ++ nl ++
                 "Tone:" ++ nl ++ "- Warm" ++ nl ++ "- Emotionally intelligent" ++ nl ++
                 "- Supportive" ++ nl ++ nl ++ "Respond in 4â€“6 sentences." ++ nl)
      by (destruct l; reflexivity).
    rewrite Hp.
    destruct (generate_content env _) as [e|response]; [run; reflexivity|].
    destruct (str_truthy response); run; reflexivity.
Qed.

Lemma selection_then_text_witness :
  replies_sent
    (snd (text_handler (answering_env "ok") (text_message 7 "ðŸ‡®ðŸ‡³ Bengalish") empty_world))
    (snd (start (answering_env "ok") (command_message 7 "start")
            (snd (text_handler (answering_env "ok") (text_message 7 "ðŸ‡®ðŸ‡³ Bengalish")
                    empty_world))))
  = [mkReply 7 "Hi. Tell me what's on your mind." None].
Proof.
  apply (proj1 (selection_then_text (answering_env "ok")
                  (text_message 7 "ðŸ‡®ðŸ‡³ Bengalish") (command_message 7 "start")
                  empty_world "ðŸ‡®ðŸ‡³ Bengalish" "/start" Bengalish
                  eq_refl eq_refl eq_refl eq_refl eq_refl)).
Defined.

(** X11. After a selection of language [l], a photo of the same user
    whose file is retrieved is sent with the directive of [l] followed by
    the image request, and a voice note or an audio file with the
    directive of [l] followed by the transcription request. *)
Theorem selection_then_media (env : Env) (u1 u2 : Message) (w : World)
        (t1 : string) (l : Lang) :
  from_user_id u2 = from_user_id u1 ->
  text u1 = Some t1 -> normalize_language t1 = Some (tag_name l) ->
  let w1 := snd (text_handler env u1 w) in
  (forall sizes p, photo u2 = (sizes ++ [p])%list -> retrievable env p ->
     map request_instruction (requests_made w1 (snd (photo_handler env u2 w1)))
     = [Some (directive l ++ " Describe this image emotionally.")]) /\
  (forall v, voice u2 = Some v -> retrievable env v ->
     map request_instruction (requests_made w1 (snd (audio_handler env u2 w1)))
     = [Some (directive l ++ " Transcribe this audio and respond emotionally.")]) /\
  (forall a, voice u2 = None -> audio u2 = Some a -> retrievable env a ->
     map request_instruction (requests_made w1 (snd (audio_handler env u2 w1)))
     = [Some (directive l ++ " Transcribe this audio and respond emotionally.")]).
Proof.
  intros Hu Ht1 Hn1 w1. subst w1.
  rewrite (text_handler_selection env u1 w t1 _ Ht1 Hn1). cbn [snd].
  assert (Hi : language_instruction (Some (tag_name l)) = directive l)
    by (destruct l; reflexivity).
  set (w1 := mkWorld _ _ _ _ _).
  assert (Haudio : forall media, voice_or_audio u2 = Some media ->
            retrievable env media ->
            map request_instruction (requests_made w1 (snd (audio_handler env u2 w1)))
            = [Some (directive l ++ " Transcribe this audio and respond emotionally.")]).
  { intros media Hm [path [bytes [Hf Hd]]].
    rewrite (audio_handler_run env u2 _ media path bytes Hm Hf Hd).
    cbv zeta. subst w1. cbn [users]. rewrite Hu, select_upsert_same.
    cbn [language_or_english]. rewrite Hi.
    destruct (generate_content env _) as [e|response]; run; reflexivity. }
  repeat apply conj.
  - intros sizes p Hp [path [bytes [Hf Hd]]].
    rewrite (photo_handler_run env u2 _ p (rev sizes) path bytes
               (rev_last_size sizes p _ Hp) Hf Hd).
    cbv zeta. subst w1. cbn [users]. rewrite Hu, select_upsert_same.
    cbn [language_or_english]. rewrite Hi.
    destruct (generate_content env _) as [e|response]; run; reflexivity.
  - intros v Hv. apply Haudio, voice_first, Hv.
  - intros a Hv Ha. apply Haudio, audio_second; assumption.
Qed.

Lemma selection_then_media_witness :
  map request_instruction
    (requests_made
       (snd (text_handler (answering_env "ok") (text_message 7 "ðŸ‡®ðŸ‡³ Hindi") empty_world))
       (snd (photo_handler (answering_env "ok") (photo_message 7 [mkMedia 1 None])
               (snd (text_handler (answering_env "ok") (text_message 7 "ðŸ‡®ðŸ‡³ Hindi")
                       empty_world)))))
  = [Some "Respond in Hindi using Devanagari script. Describe this image emotionally."] /\
  map request_instruction
    (requests_made
       (snd (text_handler (answering_env "ok") (text_message 7 "ðŸ‡®ðŸ‡³ Hindi") empty_world))
       (snd (audio_handler (answering_env "ok") (voice_message 7 (mkMedia 3 None))
               (snd (text_handler (answering_env "ok") (text_message 7 "ðŸ‡®ðŸ‡³ Hindi")
                       empty_world)))))
  = [Some "Respond in Hindi using Devanagari script. Transcribe this audio and respond emotionally."] /\
  map request_instruction
    (requests_made
       (snd (text_handler (answering_env "ok") (text_message 7 "ðŸ‡®ðŸ‡³ Hindi") empty_world))
       (snd (audio_handler (answering_env "ok") (audio_message 7 (mkMedia 4 None))
               (snd (text_handler (answering_env "ok") (text_message 7 "ðŸ‡®ðŸ‡³ Hindi")
                       empty_world)))))
  = [Some "Respond in Hindi using Devanagari script. Transcribe this audio and respond emotionally."].
Proof.
  repeat apply conj.
  - apply (proj1 (selection_then_media (answering_env "ok")
                    (text_message 7 "ðŸ‡®ðŸ‡³ Hindi") (photo_message 7 [mkMedia 1 None])
                    empty_world "ðŸ‡®ðŸ‡³ Hindi" Hindi eq_refl eq_refl eq_refl)
                 [] (mkMedia 1 None)).
    + reflexivity.
    + exists "photos/file_0.jpg", []. split; reflexivity.
  - apply (proj1 (proj2 (selection_then_media (answering_env "ok")
                    (text_message 7 "ðŸ‡®ðŸ‡³ Hindi") (voice_message 7 (mkMedia 3 None))
                    empty_world "ðŸ‡®ðŸ‡³ Hindi" Hindi eq_refl eq_refl eq_refl))
                 (mkMedia 3 None)).
    + reflexivity.
    + exists "photos/file_0.jpg", []. split; reflexivity.
  - apply (proj2 (proj2 (selection_then_media (answering_env "ok")
                    (text_message 7 "ðŸ‡®ðŸ‡³ Hindi") (audio_message 7 (mkMedia 4 None))
                    empty_world "ðŸ‡®ðŸ‡³ Hindi" Hindi eq_refl eq_refl eq_refl))
                 (mkMedia 4 None)).
    + reflexivity.
    + reflexivity.
    + exists "photos/file_0.jpg", []. split; reflexivity.
Defined.

(* ------------------------------------------------------------------ *)
(** ** Dispatch *)

(** X12. The name of a command is matched in lower case, so /START runs
    [start].  A command other than start and language, on a message
    without media, is accepted by no handler: its text is not handed to
    [text_handler], no reply is sent and the world is as before. *)
Theorem unknown_command_is_dropped (env : Env) (update : Message) (w : World)
        (c : string) :
  command update = Some c ->
  (lower c = "start" -> kind_of update = Some KStart) /\
  (lower c <> "start" -> lower c <> "language" ->
   photo update = [] -> voice update = None -> audio update = None ->
   video update = None ->
   kind_of update = None /\ process_update env update w = (Returned tt, w)).
Proof.
  intros Hc. split.
  - intros Hl. unfold kind_of, filter_command. now rewrite Hc, Hl.
  - intros N1 N2 Hp Hv Ha Hvid.
    assert (Hk : kind_of update = None).
    { unfold kind_of, filter_command, filter_text, filter_photo,
        filter_voice_audio, filter_video.
      rewrite Hc, Hp, Hv, Ha, Hvid.
      destruct (String.eqb_spec (lower c) "start"); [contradiction|].
      destruct (String.eqb_spec (lower c) "language"); [contradiction|].
      cbn. now rewrite andb_false_r. }
    split; [exact Hk|]. rewrite process_update_kind, Hk. reflexivity.
Qed.

Lemma unknown_command_is_dropped_witness :
  kind_of (command_message 7 "START") = Some KStart /\
  process_update (answering_env "ok") (command_message 7 "help")
    (mkWorld [mkUserRow 7 "English"] [] [] [] [])
  = (Returned tt, mkWorld [mkUserRow 7 "English"] [] [] [] []).
Proof.
  split.
  - apply (proj1 (unknown_command_is_dropped (answering_env "ok")
                    (command_message 7 "START") empty_world "START" eq_refl)).
    reflexivity.
  - apply (proj2 (unknown_command_is_dropped (answering_env "ok")
                    (command_message 7 "help")
                    (mkWorld [mkUserRow 7 "English"] [] [] [] []) "help" eq_refl));
      try reflexivity; discriminate.
Defined.

(* ------------------------------------------------------------------ *)
(** ** Media handlers *)

(** X13. Of the sizes of a photo only the last one matters: the handler
    behaves on any list of sizes as on its last size alone. *)
Theorem photo_handler_uses_last_size (env : Env) (update : Message) (w : World)
        (sizes : list Media) (p : Media) :
  photo_handler env (with_photo update (sizes ++ [p])) w
  = photo_handler env (with_photo update [p]) w.
Proof.
  unfold photo_handler, last_item, with_photo. cbn [photo from_user_id].
  rewrite rev_app_distr. reflexivity.
Qed.

(** X14. When the generation request of a media handler raises [e],
    after the file was retrieved, the handler still returns: it has made
    that one request, logs the text of [e], sends its own fallback reply
    and leaves both tables as they are.  This holds for a photo, for a
    voice note and for an audio file. *)
Theorem media_generation_failure (env : Env) (update : Message) (w : World) (e : Exn) :
  let user_id := from_user_id update in
  let lang := language_or_english (select_language (users w) user_id) in
  (forall sizes p path bytes,
     photo update = (sizes ++ [p])%list ->
     get_file env (file_id p) = inr path ->
     download_as_bytearray env path = inr bytes ->
     let request :=
       [SegText (language_instruction lang ++ " Describe this image emotionally.");
        SegBytes bytes "image/jpeg"] in
     generate_content env request = inl e ->
     photo_handler env update w =
     (Returned tt,
      mkWorld (users w) (messages w)
              (outbox w ++ [mkReply user_id "Couldn't analyze image." None])
              (gen_calls w ++ [request]) (error_log w ++ [exn_str e]))) /\
  (forall media path bytes,
     voice update = Some media \/ voice update = None /\ audio update = Some media ->
     get_file env (file_id media) = inr path ->
     download_as_bytearray env path = inr bytes ->
     let request :=
       [SegText (language_instruction lang
                 ++ " Transcribe this audio and respond emotionally.");
        SegBytes bytes (mime_or_ogg media)] in
     generate_content env request = inl e ->
     audio_handler env update w =
     (Returned tt,
      mkWorld (users w) (messages w)
              (outbox w ++ [mkReply user_id "Couldn't process audio." None])
              (gen_calls w ++ [request]) (error_log w ++ [exn_str e]))).
Proof.
  cbv zeta. split.
  - intros sizes p path bytes Hp Hf Hd Hgen.
    rewrite (photo_handler_run env update w p (rev sizes) path bytes
               (rev_last_size sizes p _ Hp) Hf Hd).
    cbv zeta. now rewrite Hgen.
  - intros media path bytes Hmedia Hf Hd Hgen.
    assert (Hm : voice_or_audio update = Some media).
    { destruct Hmedia as [Hv | [Hv Ha]];
        [now apply voice_first | now apply audio_second]. }
    rewrite (audio_handler_run env update w media path bytes Hm Hf Hd).
    cbv zeta. now rewrite Hgen.
Qed.

Lemma media_generation_failure_witness :
  photo_handler refusing_env (photo_message 7 [mkMedia 1 None]) empty_world
  = (Returned tt,
     mkWorld [] []
             [mkReply 7 "Couldn't analyze image." None]
             [[SegText "Respond in English. Describe this image emotionally.";
               SegBytes [] "image/jpeg"]]
             ["quota exceeded"]) /\
  audio_handler refusing_env (voice_message 7 (mkMedia 3 None)) empty_world
  = (Returned tt,
     mkWorld [] []
             [mkReply 7 "Couldn't process audio." None]
             [[SegText "Respond in English. Transcribe this audio and respond emotionally.";
               SegBytes [] "audio/ogg"]]
             ["quota exceeded"]) /\
  audio_handler refusing_env (audio_message 7 (mkMedia 4 (Some "audio/mpeg"))) empty_world
  = (Returned tt,
     mkWorld [] []
             [mkReply 7 "Couldn't process audio." None]
             [[SegText "Respond in English. Transcribe this audio and respond emotionally.";
               SegBytes [] "audio/mpeg"]]
             ["quota exceeded"]).
Proof.
  repeat apply conj.
  - apply (proj1 (media_generation_failure refusing_env
                    (photo_message 7 [mkMedia 1 None]) empty_world
                    (GeminiError "quota exceeded"))
                 [] (mkMedia 1 None) "photos/file_0.jpg" []); reflexivity.
  - apply (proj2 (media_generation_failure refusing_env
                    (voice_message 7 (mkMedia 3 None)) empty_world
                    (GeminiError "quota exceeded"))
                 (mkMedia 3 None) "photos/file_0.jpg" []);
      try reflexivity. left. reflexivity.
  - apply (proj2 (media_generation_failure refusing_env
                    (audio_message 7 (mkMedia 4 (Some "audio/mpeg"))) empty_world
                    (GeminiError "quota exceeded"))
                 (mkMedia 4 (Some "audio/mpeg")) "photos/file_0.jpg" []);
      try reflexivity. right. split; reflexivity.
Defined.

(** X15. For a voice note, or for an audio file on a message without a
    voice note, whose file is retrieved, [audio_handler] makes one request
    whose bytes are those of that file and whose MIME type is the one of
    the file when it is given and not empty, and "audio/ogg" when it is
    missing or empty; the MIME type sent is never empty. *)
Theorem audio_request_mime (env : Env) (update : Message) (w : World)
        (media : Media) (path : string) (bytes : list Byte.byte) :
  voice update = Some media \/ voice update = None /\ audio update = Some media ->
  get_file env (file_id media) = inr path ->
  download_as_bytearray env path = inr bytes ->
  exists instruction mime,
    requests_made w (snd (audio_handler env update w))
    = [[SegText instruction; SegBytes bytes mime]] /\
    (forall m, mime_type media = Some m -> m <> "" -> mime = m) /\
    (mime_type media = None \/ mime_type media = Some "" -> mime = "audio/ogg") /\
    mime <> "".
Proof.
  intros Hmedia Hf Hd.
  assert (Hm : voice_or_audio update = Some media).
  { destruct Hmedia as [Hv | [Hv Ha]];
      [now apply voice_first | now apply audio_second]. }
  rewrite (audio_handler_run env update w media path bytes Hm Hf Hd).
  cbv zeta.
  assert (Hmime : (forall m, mime_type media = Some m -> m <> "" ->
                             mime_or_ogg media = m) /\
                  (mime_type media = None \/ mime_type media = Some "" ->
                   mime_or_ogg media = "audio/ogg") /\
                  mime_or_ogg media <> "").
  { unfold mime_or_ogg. destruct (mime_type media) as [m|].
    - destruct m as [|c m]; cbn.
      + repeat split; [intros m H; inversion H; subst; congruence | discriminate].
      + repeat split.
        * intros m' H. now inversion H.
        * intros [H|H]; discriminate.
        * discriminate.
    - repeat split; [discriminate | discriminate]. }
  destruct (generate_content env _) as [e|response]; run;
    eexists; exists (mime_or_ogg media); (split; [reflexivity | exact Hmime]).
Qed.

Lemma audio_request_mime_witness :
  (exists instruction mime,
     requests_made empty_world
       (snd (audio_handler (answering_env "ok")
               (voice_message 7 (mkMedia 3 (Some ""))) empty_world))
     = [[SegText instruction; SegBytes [] mime]] /\ mime = "audio/ogg") /\
  (exists instruction mime,
     requests_made empty_world
       (snd (audio_handler (answering_env "ok")
               (audio_message 7 (mkMedia 4 (Some "audio/mpeg"))) empty_world))
     = [[SegText instruction; SegBytes [] mime]] /\ mime = "audio/mpeg").
Proof.
  split.
  - destruct (audio_request_mime (answering_env "ok")
                (voice_message 7 (mkMedia 3 (Some ""))) empty_world
                (mkMedia 3 (Some "")) "photos/file_0.jpg" []
                (or_introl eq_refl) eq_refl eq_refl)
      as [instruction [mime [Hreq [_ [Hdefault _]]]]].
    exists instruction, mime. split; [exact Hreq|].
    apply Hdefault. right. reflexivity.
  - destruct (audio_request_mime (answering_env "ok")
                (audio_message 7 (mkMedia 4 (Some "audio/mpeg"))) empty_world
                (mkMedia 4 (Some "audio/mpeg")) "photos/file_0.jpg" []
                (or_intror (conj eq_refl eq_refl)) eq_refl eq_refl)
      as [instruction [mime [Hreq [Hown _]]]].
    exists instruction, mime. split; [exact Hreq|].
    symmetry. symmetry. apply (Hown "audio/mpeg"); [reflexivity | discriminate].
Defined.

(* ------------------------------------------------------------------ *)
(** ** Replies *)

(** X16. A run sends at most one reply.  The language keyboard is
    attached only by the language command, or by [start] and
    [text_handler] for a sender with no stored language; the media and
    video handlers never attach it. *)
Theorem one_reply_and_keyboard_use (env : Env) (update : Message) (w : World) :
  let w' := snd (process_update env update w) in
  (length (replies_sent w w') <= 1)%nat /\
  forall r, In r (replies_sent w w') ->
    reply_markup r = None \/
    reply_markup r = Some LANGUAGE_KEYBOARD /\
    (kind_of update = Some KLanguage \/
     select_language (users w) (from_user_id update) = None /\
     (kind_of update = Some KStart \/ kind_of update = Some KText)).
Proof.
  cbv zeta. by_path env update w; (split; [cbn; lia|]); intros r Hr;
    try (now destruct Hr); destruct Hr as [<-|[]]; cbn; auto 7.
Qed.

Lemma one_reply_and_keyboard_use_witness :
  replies_sent empty_world
    (snd (process_update (answering_env "ok") (command_message 7 "start") empty_world))
  = [mkReply 7 "Select your language:" (Some LANGUAGE_KEYBOARD)] /\
  (reply_markup (mkReply 7 "Select your language:" (Some LANGUAGE_KEYBOARD)) = None \/
   reply_markup (mkReply 7 "Select your language:" (Some LANGUAGE_KEYBOARD))
   = Some LANGUAGE_KEYBOARD /\
   (kind_of (command_message 7 "start") = Some KLanguage \/
    select_language (users empty_world) 7 = None /\
    (kind_of (command_message 7 "start") = Some KStart \/
     kind_of (command_message 7 "start") = Some KText))).
Proof.
  split; [reflexivity|].
  apply (proj2 (one_reply_and_keyboard_use (answering_env "ok")
                  (command_message 7 "start") empty_world)
               (mkReply 7 "Select your language:" (Some LANGUAGE_KEYBOARD))).
  vm_compute. left. reflexivity.
Defined.

(** X17. An empty reply can only come from a media handler relaying an
    empty generation result: the commands, the video handler and the text
    handler never send an empty text, the last because it takes an empty
    result for a failure. *)
Theorem empty_reply_only_from_media (env : Env) (update : Message) (w : World) :
  let w' := snd (process_update env update w) in
  forall r, In r (replies_sent w w') -> body r = "" ->
    (kind_of update = Some KPhoto \/ kind_of update = Some KVoiceAudio) /\
    exists c, requests_made w w' = [c] /\ generate_content env c = inr "".
Proof.
  cbv zeta. by_path env update w; intros r Hr Hb;
    try (now destruct Hr); destruct Hr as [<-|[]]; cbn in Hb;
    try discriminate; subst;
    try (cbn in Htruthy; discriminate); eauto.
Qed.

Lemma empty_reply_only_from_media_witness :
  exists c,
    requests_made empty_world
      (snd (process_update (answering_env "") (photo_message 7 [mkMedia 1 None])
              empty_world)) = [c] /\
    generate_content (answering_env "") c = inr "".
Proof.
  apply (empty_reply_only_from_media (answering_env "")
           (photo_message 7 [mkMedia 1 None]) empty_world (mkReply 7 "" None)).
  - vm_compute. left. reflexivity.
  - reflexivity.
Defined.

(** X18. Every button of the language keyboard is a selection of one of
    the five languages, the five buttons select five different languages,
    and every language has a button: sent as plain text by any user, a
    label stores its language for that user. *)
Theorem keyboard_buttons_select (env : Env) (user_id : Z) (w : World) :
  (forall label, In label (concat LANGUAGE_KEYBOARD) ->
     exists l,
       normalize_language label = Some (tag_name l) /\
       select_language
         (users (snd (text_handler env (text_message user_id label) w))) user_id
       = Some (tag_name l)) /\
  (forall l, exists label,
       In label (concat LANGUAGE_KEYBOARD) /\
       normalize_language label = Some (tag_name l)) /\
  NoDup (map normalize_language (concat LANGUAGE_KEYBOARD)).
Proof.
  split; [|split].
  - intros label Hin.
    assert (Hl : exists l, normalize_language label = Some (tag_name l)).
    { cbn in Hin.
      destruct Hin as [<-|[<-|[<-|[<-|[<-|[]]]]]];
        [exists English | exists Hindi | exists Bengali | exists Hinglish
         | exists Bengalish]; vm_compute; reflexivity. }
    destruct Hl as [l Hl]. exists l. split; [exact Hl|].
    rewrite (text_handler_selection env (text_message user_id label) w
               label (tag_name l) eq_refl Hl).
    cbn [snd users from_user_id text_message]. apply select_upsert_same.
  - intros l.
    destruct l;
      [exists "ðŸ‡¬ðŸ‡§ English" | exists "ðŸ‡®ðŸ‡³ Hindi" | exists "ðŸ‡®ðŸ‡³ Bengali"
       | exists "ðŸ‡®ðŸ‡³ Hinglish" | exists "ðŸ‡®ðŸ‡³ Bengalish"];
      (split; [cbn; tauto | vm_compute; reflexivity]).
  - vm_compute. repeat constructor; cbn; intuition discriminate.
Qed.

Lemma keyboard_buttons_select_witness :
  exists l,
    normalize_language "ðŸ‡®ðŸ‡³ Bengalish" = Some (tag_name l) /\
    select_language
      (users (snd (text_handler (answering_env "ok")
                     (text_message 7 "ðŸ‡®ðŸ‡³ Bengalish") empty_world))) 7
    = Some (tag_name l).
Proof.
  apply (proj1 (keyboard_buttons_select (answering_env "ok") 7 empty_world)).
  cbn. tauto.
Defined.

(* ------------------------------------------------------------------ *)
(** ** Gemini generator *)

(** X19. [generate_ai] never raises.  It makes the one request; when the
    client returns, the result is the text and nothing is logged; when the
    client raises, the result is [None] and one line "Gemini Error: ..."
    with the text of the exception is logged.  Tables and replies are left
    alone. *)
Theorem generate_ai_never_raises (env : Env) (contents : list Segment) (w : World) :
  let r := generate_ai env contents w in
  match generate_content env contents with
  | inr response =>
      fst r = Returned (Some response) /\ error_log (snd r) = error_log w
  | inl e =>
      fst r = Returned None /\
      error_log (snd r) = (error_log w ++ [("Gemini Error: " ++ exn_str e)%string])%list
  end /\
  requests_made w (snd r) = [contents] /\
  users (snd r) = users w /\ messages (snd r) = messages w /\
  outbox (snd r) = outbox w.
Proof.
  cbv zeta. unfold generate_ai. run.
  destruct (generate_content env contents) as [e|response];
    cbn; run; repeat split.
Qed.

(* ------------------------------------------------------------------ *)
(** ** Updates that are not new messages *)

(** On a new message the dispatch of updates is [process_update]. *)
Lemma process_new_message (env : Env) (m : Message) (w : World) :
  process_any_update env (mkUpdate NewMessage m) w = process_update env m w.
Proof.
  unfold process_any_update, process_update, update_handlers, handlers,
    check_command, check_message.
  cbn [find fst snd update_type effective_message].
  repeat match goal with |- context [if ?b then _ else _] => destruct b end;
    reflexivity.
Qed.

Lemma on_message_other (callback : Message -> M unit) (u : Update) :
  update_type u <> NewMessage -> on_message callback u = raise AttributeError.
Proof.
  unfold on_message, update_message. destruct (update_type u); congruence.
Qed.

(** X20. An edited message, a channel post or an edited channel post is
    never answered: whatever it carries, no reply is sent, no generation
    request is made and both tables stay as they are.  When a filter
    accepts it (any content kind for an edited message, any kind but the
    two commands for a channel post) the callback raises on reading
    [update.message], and the SDK logs that exception. *)
Theorem other_updates_are_unanswered (env : Env) (u : Update) (w : World) :
  update_type u <> NewMessage ->
  let r := process_any_update env u w in
  fst r = Returned tt /\
  outbox (snd r) = outbox w /\ gen_calls (snd r) = gen_calls w /\
  users (snd r) = users w /\ messages (snd r) = messages w /\
  (forall k, kind_of (effective_message u) = Some k ->
     update_type u = EditedMessage \/ k <> KStart /\ k <> KLanguage ->
     error_log (snd r) = (error_log w ++ [unhandled_line AttributeError])%list).
Proof.
  intros Hnew. cbv zeta.
  assert (Hon : forall callback, on_message callback u = raise AttributeError)
    by (intros callback; now apply on_message_other).
  unfold process_any_update, update_handlers, check_command, check_message, kind_of.
  cbn [find fst snd].
  destruct (update_type u) eqn:Ety; [contradiction| | |];
    repeat match goal with
           | |- context [if ?b then _ else _] => destruct b eqn:?
           end;
    cbn [fst snd]; rewrite ?Hon; run; repeat split; try reflexivity;
    intros k Hk Hor; inversion Hk; subst;
    try reflexivity;
    destruct Hor as [Hor | [N1 N2]]; try discriminate; try congruence.
Qed.

Lemma other_updates_are_unanswered_witness :
  process_any_update (answering_env "ok")
    (mkUpdate EditedMessage (text_message 7 "I feel better now"))
    (mkWorld [mkUserRow 7 "English"] [] [] [] [])
  = (Returned tt,
     mkWorld [mkUserRow 7 "English"] [] [] []
             [unhandled_line AttributeError]).
Proof.
  pose proof (other_updates_are_unanswered (answering_env "ok")
                (mkUpdate EditedMessage (text_message 7 "I feel better now"))
                (mkWorld [mkUserRow 7 "English"] [] [] [] [])) as H.
  cbv zeta in H.
  destruct H as [Hret [Hout [Hgen [Husers [Hmsgs Hlog]]]]]; [discriminate|].
  specialize (Hlog KText eq_refl (or_introl eq_refl)).
  destruct (process_any_update _ _ _) as [o w'].
  cbn [fst snd] in *. subst o. destruct w'. cbn in *. congruence.
Defined.
